(** * Self-driving car: the simulation tick, the training loop and shutdown

    A shallow embedding of the two entry points of the repository,
    [train_deep_q.py] (training loop) and [main.py] (inference loop).

    Both files are orchestration: they call the car, the track, the line
    evaluator and the deep-Q driver, whose code lives in other modules.
    Those collaborators are taken as an interface ([Env]): every method
    is a function on an opaque world that either answers or raises.
    The orchestration itself (globals, control flow, try/except, the
    training thread) is transcribed statement by statement.

    Python floats ([dt], [time_elapsed], scores, rewards) are the
    rationals they denote, and an addition or subtraction of floats is
    the exact result rounded by [fl], the rounding of the float format;
    comparisons are exact.  The theorems hold for every rounding [fl];
    [Binary64.round] is that of Python.  Floats are taken finite (no
    NaN, no infinity).  Exceptions are instances of [Exception], the
    class every handler of the two files catches. *)

From Stdlib Require Import List ZArith QArith Bool String Lia Lqa.
Import ListNotations.

Set Implicit Arguments.

(** ** Control outcomes and the interpreter monad *)

(** How a block of statements ends. *)
Inductive ctl (X A : Type) : Type :=
| Val (a : A)     (* ran to its end, with a value *)
| Return          (* executed a bare [return] *)
| Exc (e : X).    (* an exception is propagating *)

Arguments Val {X A} a.
Arguments Return {X A}.
Arguments Exc {X A} e.

(** What a collaborator's method does when called. *)
Inductive reply (X A : Type) : Type :=
| Ok (a : A)
| Raise (e : X).

Arguments Ok {X A} a.
Arguments Raise {X A} e.

Section Interp.
Variables X S : Type.

(** Statements: state in, outcome and state out.  The state survives
    an exception, as Python's globals and objects do. *)
Definition M (A : Type) : Type := S -> ctl X A * S.

Definition ret {A} (a : A) : M A := fun s => (Val a, s).

Definition bind {A B} (m : M A) (k : A -> M B) : M B :=
  fun s =>
    match m s with
    | (Val a, s1) => k a s1
    | (Return, s1) => (Return, s1)
    | (Exc e, s1) => (Exc e, s1)
    end.

(** [return] with no value. *)
Definition return_ {A} : M A := fun s => (Return, s).

(** [try: body except Exception as e: handler e].  A [return] inside
    the body leaves the [try] without running the handler. *)
Definition try_except {A} (body : M A) (handler : X -> M A) : M A :=
  fun s =>
    match body s with
    | (Exc e, s1) => handler e s1
    | r => r
    end.

(** The boundary of a [def] whose body falls off its end or executes
    a bare [return]: the caller sees a normal completion either way. *)
Definition def (body : M unit) : M unit :=
  fun s =>
    match body s with
    | (Return, s1) => (Val tt, s1)
    | r => r
    end.

Definition gets {A} (f : S -> A) : M A := fun s => (Val (f s), s).
Definition modify (f : S -> S) : M unit := fun s => (Val tt, f s).
End Interp.

Arguments ret {X S A} a.
Arguments bind {X S A B} m k.
Arguments return_ {X S A}.
Arguments try_except {X S A} body handler.
Arguments def {X S} body.
Arguments gets {X S A} f.
Arguments modify {X S} f.

Declare Scope py_scope.
Delimit Scope py_scope with py.
Notation "x <- m ;; k" := (bind m (fun x => k))
  (at level 61, m at next level, right associativity) : py_scope.
Notation "m ;; k" := (bind m (fun _ => k))
  (at level 61, right associativity) : py_scope.
Open Scope py_scope.

(** ** The collaborators *)

(** The car, track, evaluator and driver objects, the replay cache and the
    model file, seen through the methods the two entry points call. *)
Record Env : Type := {
  World : Type;      (* joint state of all collaborator objects and files *)
  Obs : Type;        (* state vector built by the driver *)
  Action : Type;     (* discrete action index *)
  Exn : Type;        (* exception values *)
  Loss : Type;       (* training loss *)
  Point : Type;
  Dir : Type;
  (* DeepQDriver *)
  get_input_data : World -> reply Exn Obs * World;
  calculate_command : bool -> World -> reply Exn (Q * Q * Action) * World;
  remember : Obs -> Action -> Q -> Obs -> bool -> World -> reply Exn unit * World;
  dump_memory_to_cache : World -> reply Exn unit * World;
  replay_memory : Z -> Z -> World -> reply Exn (option Loss) * World;
  decay_epsilon : World -> reply Exn unit * World;
  clear_last_explore : World -> World;             (* driver.last_explore = None *)
  epsilon : World -> Q;                            (* driver.epsilon *)
  save_model_weights : string -> World -> reply Exn unit * World;
  load_model_weights : string -> World -> reply Exn unit * World;
  (* Car *)
  move : Q -> Q -> Q -> World -> reply Exn unit * World;
  init_position : Point -> Dir -> World -> reply Exn unit * World;
  (* Track *)
  start_point : World -> Point;
  start_direction : World -> Dir;
  (* LineEvaluator; [evaluate]'s answer is taken by its truth value *)
  evaluate : Q -> World -> reply Exn bool * World;
  get_score : World -> reply Exn Q * World;
  reset_score : World -> reply Exn unit * World;
  (* os.path.exists *)
  path_exists : string -> World -> bool;
  (* scheduling: does a running training pass end within a join timeout? *)
  finishes_within : Q -> World -> bool;
  (* float arithmetic: the float nearest to an exact result *)
  fl : Q -> Q
}.

(** Text written by [print] and by the logger. *)
Inductive msg (E : Env) : Type :=
| MsgGameEnded (n : Z)                 (* "Game", n, "ended!" *)
| MsgGameStarting (n : Z) (eps : Q)    (* "Game", n, "starting! Epsilon:", eps *)
| MsgTrainingSkipped                   (* "Training already running; skipping ..." *)
| MsgBgFinished (l : Loss E)           (* "Background training finished. Loss: ..." *)
| MsgBgNoLoss                          (* "Background training finished with no loss ..." *)
| MsgBgError (e : Exn E)               (* "Background training error: ..." *)
| MsgWaiting                           (* "Waiting for background training to finish..." *)
| MsgModelSaved                        (* "Model saved successfully!" *)
| MsgSaveError (e : Exn E)             (* "Error saving model: ..." *)
| MsgInputDataFailed (e : Exn E)       (* "driver.get_input_data() failed (non-fatal): ..." *)
| MsgCommandFailed (e : Exn E)         (* "driver.calculate_command() failed; using safe zero action..." *)
| MsgMoveFailed (e : Exn E)            (* "car.move() failed: ..." *)
| MsgEvaluateFailed (e : Exn E)        (* "evaluator.evaluate() error: ..." *)
| MsgEpisodeDone                       (* "Episode done ... resetting car & evaluator" *)
| MsgReinitFailed (e : Exn E)          (* "Failed to re-init car: ..." *)
| MsgResetFailed (e : Exn E)           (* "Failed to reset evaluator score: ..." *)
| MsgUnhandled (e : Exn E)             (* "Unhandled error inside game loop: ..." *)
| MsgWeightsLoaded (p : string)        (* "Model weights loaded from ..." *)
| MsgLoadFailed (p : string) (e : Exn E) (* "Failed to load model weights from ..." *)
| MsgContinuing                        (* "Continuing without pretrained weights. ..." *)
| MsgModelNotFound (p : string).       (* "Model file not found at ..." *)

Inductive level : Type := DEBUG | INFO | WARNING | ERROR.

(** One entry per call that leaves the entry point, in program order,
    with the arguments passed and the answer received. *)
Inductive event (E : Env) : Type :=
| EGetInputData (r : reply (Exn E) (Obs E))
| ECalculateCommand (training : bool) (r : reply (Exn E) (Q * Q * Action E))
| EMove (turn_rate acceleration_rate dt : Q) (r : reply (Exn E) unit)
| EEvaluate (dt : Q) (r : reply (Exn E) bool)
| EGetScore (r : reply (Exn E) Q)
| ERemember (state : Obs E) (action : Action E) (reward : Q)
            (new_state : Obs E) (done : bool) (r : reply (Exn E) unit)
| EDumpMemoryToCache (r : reply (Exn E) unit)
| EReplayMemory (batch_size epochs : Z) (r : reply (Exn E) (option (Loss E)))
| EDecayEpsilon (r : reply (Exn E) unit)
| EInitPosition (p : Point E) (d : Dir E) (r : reply (Exn E) unit)
| EResetScore (r : reply (Exn E) unit)
| ESaveModelWeights (path : string) (r : reply (Exn E) unit)
| ELoadModelWeights (path : string) (r : reply (Exn E) unit)
| EThreadStart (id : nat)
| EThreadJoin (id : nat) (timeout : Q)
| EPrint (m : msg E)
| ELog (lvl : level) (m : msg E).

Arguments MsgGameEnded {E} n.
Arguments MsgGameStarting {E} n eps.
Arguments MsgTrainingSkipped {E}.
Arguments MsgBgFinished {E} l.
Arguments MsgBgNoLoss {E}.
Arguments MsgBgError {E} e.
Arguments MsgWaiting {E}.
Arguments MsgModelSaved {E}.
Arguments MsgSaveError {E} e.
Arguments MsgInputDataFailed {E} e.
Arguments MsgCommandFailed {E} e.
Arguments MsgMoveFailed {E} e.
Arguments MsgEvaluateFailed {E} e.
Arguments MsgEpisodeDone {E}.
Arguments MsgReinitFailed {E} e.
Arguments MsgResetFailed {E} e.
Arguments MsgUnhandled {E} e.
Arguments MsgWeightsLoaded {E} p.
Arguments MsgLoadFailed {E} p e.
Arguments MsgContinuing {E}.
Arguments MsgModelNotFound {E} p.
Arguments EGetInputData {E} r.
Arguments ECalculateCommand {E} training r.
Arguments EMove {E} turn_rate acceleration_rate dt r.
Arguments EEvaluate {E} dt r.
Arguments EGetScore {E} r.
Arguments ERemember {E} state action reward new_state done r.
Arguments EDumpMemoryToCache {E} r.
Arguments EReplayMemory {E} batch_size epochs r.
Arguments EDecayEpsilon {E} r.
Arguments EInitPosition {E} p d r.
Arguments EResetScore {E} r.
Arguments ESaveModelWeights {E} path r.
Arguments ELoadModelWeights {E} path r.
Arguments EThreadStart {E} id.
Arguments EThreadJoin {E} id timeout.
Arguments EPrint {E} m.
Arguments ELog {E} lvl m.

(** The exception a logged call raised, if it raised. *)
Definition raised {X A : Type} (r : reply X A) : option X :=
  match r with
  | Ok _ => None
  | Raise e => Some e
  end.

Definition fault_of {E : Env} (ev : event E) : option (Exn E) :=
  match ev with
  | EGetInputData r => raised r
  | ECalculateCommand _ r => raised r
  | EMove _ _ _ r => raised r
  | EEvaluate _ r => raised r
  | EGetScore r => raised r
  | ERemember _ _ _ _ _ r => raised r
  | EDumpMemoryToCache r => raised r
  | EReplayMemory _ _ r => raised r
  | EDecayEpsilon r => raised r
  | EInitPosition _ _ r => raised r
  | EResetScore r => raised r
  | ESaveModelWeights _ r => raised r
  | ELoadModelWeights _ r => raised r
  | EThreadStart _ | EThreadJoin _ _ | EPrint _ | ELog _ _ => None
  end.

(** A [threading.Thread] whose target is the background replay. *)
Inductive thread : Type :=
| Created (batch_size epochs : Z)     (* constructed, not started *)
| Running (batch_size epochs : Z)     (* started, target not finished *)
| Finished.

Definition is_alive (t : thread) : bool :=
  match t with Running _ _ => true | _ => false end.

(** Interpreter state: the module's globals [G], the collaborators, the
    thread objects ever constructed (a global holds an index into them)
    and the log of calls. *)
Record St (E : Env) (G : Type) : Type := mkSt {
  globals : G;
  world : World E;
  threads : list thread;
  trace : list (event E)
}.

Arguments mkSt {E G} _ _ _ _.
Arguments globals {E G} _.
Arguments world {E G} _.
Arguments threads {E G} _.
Arguments trace {E G} _.

Section Store.
Context {E : Env} {G : Type}.
Local Abbreviation St := (St E G).
Local Abbreviation M := (M (Exn E) St).

Definition set_globals (f : G -> G) (s : St) : St :=
  mkSt (f (globals s)) (world s) (threads s) (trace s).
Definition set_world (w : World E) (s : St) : St :=
  mkSt (globals s) w (threads s) (trace s).
Definition set_threads (ts : list thread) (s : St) : St :=
  mkSt (globals s) (world s) ts (trace s).
Definition emit (ev : event E) (s : St) : St :=
  mkSt (globals s) (world s) (threads s) (trace s ++ [ev]).

(** Read and write a global. *)
Definition load {A} (f : G -> A) : M A := gets (fun s => f (globals s)).
Definition store (f : G -> G) : M unit := modify (set_globals f).

(** Call a method of a collaborator: the world moves, the call is
    logged with its answer, and a raise becomes a propagating exception. *)
Definition call {A} (ev : reply (Exn E) A -> event E)
           (op : World E -> reply (Exn E) A * World E) : M A :=
  fun s =>
    let (r, w1) := op (world s) in
    let s1 := emit (ev r) (set_world w1 s) in
    match r with
    | Ok a => (Val a, s1)
    | Raise e => (Exc e, s1)
    end.

(** Attribute reads and writes on a collaborator; they do not raise. *)
Definition attr {A} (f : World E -> A) : M A := gets (fun s => f (world s)).
Definition set_attr (f : World E -> World E) : M unit :=
  modify (fun s => set_world (f (world s)) s).

Definition print (m : msg E) : M unit := modify (emit (EPrint m)).
Definition log (lvl : level) (m : msg E) : M unit := modify (emit (ELog lvl m)).

(** The calls a block makes when run from [s]: what it adds to the log. *)
Definition events_of {A} (m : M A) (s : St) : list (event E) :=
  skipn (List.length (trace s)) (trace (snd (m s))).
End Store.

(** ** train_deep_q.py *)

Module TrainDeepQ.

(** The module's globals (lines 12 and 38-43).  [training_thread] is
    [None] or a reference to a thread object. *)
Record Globals (E : Env) : Type := mkGlobals {
  last_score : Q;
  time_elapsed : Q;
  game_count : Z;
  skip_frame : bool;
  losses : list (Loss E);
  scores : list Q;
  training_thread : option nat
}.

Arguments mkGlobals {E} _ _ _ _ _ _ _.
Arguments last_score {E} _.
Arguments time_elapsed {E} _.
Arguments game_count {E} _.
Arguments skip_frame {E} _.
Arguments losses {E} _.
Arguments scores {E} _.
Arguments training_thread {E} _.

Section Program.
Context {E : Env}.
Local Abbreviation G := (Globals E).
Local Abbreviation St := (St E G).
Local Abbreviation M := (M (Exn E) St).

Definition set_last_score (v : Q) (g : G) : G :=
  mkGlobals v (time_elapsed g) (game_count g) (skip_frame g)
            (losses g) (scores g) (training_thread g).
Definition set_time_elapsed (v : Q) (g : G) : G :=
  mkGlobals (last_score g) v (game_count g) (skip_frame g)
            (losses g) (scores g) (training_thread g).
Definition set_game_count (v : Z) (g : G) : G :=
  mkGlobals (last_score g) (time_elapsed g) v (skip_frame g)
            (losses g) (scores g) (training_thread g).
Definition set_skip_frame (v : bool) (g : G) : G :=
  mkGlobals (last_score g) (time_elapsed g) (game_count g) v
            (losses g) (scores g) (training_thread g).
Definition set_losses (v : list (Loss E)) (g : G) : G :=
  mkGlobals (last_score g) (time_elapsed g) (game_count g) (skip_frame g)
            v (scores g) (training_thread g).
Definition set_scores (v : list Q) (g : G) : G :=
  mkGlobals (last_score g) (time_elapsed g) (game_count g) (skip_frame g)
            (losses g) v (training_thread g).
Definition set_training_thread (v : option nat) (g : G) : G :=
  mkGlobals (last_score g) (time_elapsed g) (game_count g) (skip_frame g)
            (losses g) (scores g) v.

(** The state right after the module's top level has run (lines 10-43),
    over the collaborators as the constructors left them. *)
Definition initial (w0 : World E) : St :=
  mkSt (mkGlobals 0 0 0%Z false [] [] None) w0 [] [].

(** [_background_replay(batch_size, epochs)], lines 15-24. *)
Definition _background_replay (batch_size epochs : Z) : M unit :=
  def (
    try_except
      (loss <- call (EReplayMemory batch_size epochs)
                    (replay_memory E batch_size epochs) ;;
       match loss with
       | Some l =>
           store (fun g => set_losses (losses g ++ [l]) g) ;;
           print (MsgBgFinished l)
       | None =>
           print MsgBgNoLoss
       end)
      (fun e => print (MsgBgError e))).

(** ** Thread objects *)

(** [threading.Thread(target=_background_replay, args=(batch_size, epochs),
    daemon=True)]: a new object, referred to by its index. *)
Definition Thread (batch_size epochs : Z) : M nat :=
  fun s => (Val (List.length (threads s)),
            set_threads (threads s ++ [Created batch_size epochs]) s).

Fixpoint update (i : nat) (f : thread -> thread) (ts : list thread) : list thread :=
  match ts, i with
  | [], _ => []
  | t :: r, O => f t :: r
  | t :: r, S j => t :: update j f r
  end.

Definition ref_alive (ts : list thread) (i : nat) : bool :=
  match nth_error ts i with
  | Some t => is_alive t
  | None => false
  end.

(** [t.is_alive()] *)
Definition thread_is_alive (i : nat) : M bool :=
  gets (fun s => ref_alive (threads s) i).

Definition started (t : thread) : thread :=
  match t with Created b e => Running b e | _ => t end.

(** [t.start()]: the target begins to run on its own thread. *)
Definition thread_start (i : nat) : M unit :=
  modify (fun s => emit (EThreadStart i)
                        (set_threads (update i started (threads s)) s)).

(** The target of thread [i] runs to its end and the thread dies.  The
    pass is taken to act on the shared objects at once, when it ends. *)
Definition complete (i : nat) : M unit :=
  ts <- gets (fun s => threads s) ;;
  match nth_error ts i with
  | Some (Running batch_size epochs) =>
      _background_replay batch_size epochs ;;
      modify (fun s => set_threads (update i (fun _ => Finished) (threads s)) s)
  | _ => ret tt
  end.

(** [t.join(timeout)]: blocks until the thread ends or the timeout passes. *)
Definition thread_join (i : nat) (timeout : Q) : M unit :=
  modify (emit (EThreadJoin i timeout)) ;;
  fin <- attr (finishes_within E timeout) ;;
  if fin then complete i else ret tt.

(** ** The tick *)

(** [game_loop(dt)], lines 46-87. *)
Definition game_loop (dt : Q) : M unit :=
  def (
    sf <- load skip_frame ;;
    (if sf then store (set_skip_frame false) ;; return_ else ret tt) ;;
    store (fun g => set_time_elapsed (fl E (time_elapsed g + dt)) g) ;;
    state <- call EGetInputData (get_input_data E) ;;
    cmd <- call (ECalculateCommand true) (calculate_command E true) ;;
    let '(turn_rate, acceleration_rate, action) := cmd in
    call (EMove turn_rate acceleration_rate dt)
         (move E turn_rate acceleration_rate dt) ;;
    alive <- call (EEvaluate dt) (evaluate E dt) ;;
    let done := negb alive in
    score <- call EGetScore (get_score E) ;;
    base <- load last_score ;;
    let reward := fl E (score - base) in
    score' <- call EGetScore (get_score E) ;;
    store (set_last_score score') ;;
    new_state <- call EGetInputData (get_input_data E) ;;
    call (ERemember state action reward new_state done)
         (remember E state action reward new_state done) ;;
    elapsed <- load time_elapsed ;;
    if done || Qle_bool 300 elapsed then
      call EDumpMemoryToCache (dump_memory_to_cache E) ;;
      n <- load game_count ;;
      print (MsgGameEnded n) ;;
      th <- load training_thread ;;
      idle <- match th with
              | None => ret true
              | Some i => running <- thread_is_alive i ;; ret (negb running)
              end ;;
      (if idle then
         i <- Thread (Z.shiftl 1 10) 10 ;;
         store (set_training_thread (Some i)) ;;
         thread_start i
       else
         print MsgTrainingSkipped) ;;
      final <- call EGetScore (get_score E) ;;
      store (fun g => set_scores (scores g ++ [fl E (final + 100)]) g) ;;
      call EDecayEpsilon (decay_epsilon E) ;;
      set_attr (clear_last_explore E) ;;
      store (fun g => set_game_count (game_count g + 1) g) ;;
      n' <- load game_count ;;
      eps <- attr (epsilon E) ;;
      print (MsgGameStarting n' eps) ;;
      store (set_last_score 0) ;;
      store (set_time_elapsed 0) ;;
      p <- attr (start_point E) ;;
      d <- attr (start_direction E) ;;
      call (EInitPosition p d) (init_position E p d) ;;
      call EResetScore (reset_score E) ;;
      store (set_skip_frame true)
    else
      ret tt).

(** [on_close()], lines 106-118; the handler's answer is [True]. *)
Definition on_close : M bool :=
  try_except
    (th <- load training_thread ;;
     running <- match th with
                | None => ret false
                | Some i => thread_is_alive i
                end ;;
     match th, running with
     | Some i, true =>
         print MsgWaiting ;;
         thread_join i 10
     | _, _ => ret tt
     end ;;
     call (ESaveModelWeights "model.h5") (save_model_weights E "model.h5") ;;
     print MsgModelSaved)
    (fun e => print (MsgSaveError e)) ;;
  ret true.

(** ** Observations on a tick *)

Definition tick_events (dt : Q) (s : St) : list (event E) :=
  events_of (game_loop dt) s.

(** What the body of a tick (lines 55-66) adds to the log when every
    call answers; [base] is [last_score] as the tick found it. *)
Definition body_events (dt base : Q) (state : Obs E)
           (turn_rate acceleration_rate : Q) (action : Action E)
           (alive : bool) (score score' : Q) (new_state : Obs E)
  : list (event E) :=
  [EGetInputData (Ok state);
   ECalculateCommand true (Ok (turn_rate, acceleration_rate, action));
   EMove turn_rate acceleration_rate dt (Ok tt);
   EEvaluate dt (Ok alive);
   EGetScore (Ok score);
   EGetScore (Ok score');
   EGetInputData (Ok new_state);
   ERemember state action (fl E (score - base)) new_state (negb alive) (Ok tt)].

(** The five operations of a tick: read the state, choose the command,
    move, evaluate, remember. *)
Definition is_tick_op (e : event E) : bool :=
  match e with
  | EGetInputData _ | ECalculateCommand _ _ | EMove _ _ _ _
  | EEvaluate _ _ | ERemember _ _ _ _ _ _ => true
  | _ => false
  end.

(** The same five operations by name, and the order in which lines
    55-66 call them. *)
Inductive tick_op : Type :=
| OpGetInputData | OpCalculateCommand | OpMove | OpEvaluate | OpRemember.

Definition op_of (e : event E) : option tick_op :=
  match e with
  | EGetInputData _ => Some OpGetInputData
  | ECalculateCommand _ _ => Some OpCalculateCommand
  | EMove _ _ _ _ => Some OpMove
  | EEvaluate _ _ => Some OpEvaluate
  | ERemember _ _ _ _ _ _ => Some OpRemember
  | _ => None
  end.

Fixpoint ops_of (evs : list (event E)) : list tick_op :=
  match evs with
  | [] => []
  | e :: r =>
      match op_of e with
      | Some o => o :: ops_of r
      | None => ops_of r
      end
  end.

Definition tick_order : list tick_op :=
  [OpGetInputData; OpCalculateCommand; OpMove; OpEvaluate;
   OpGetInputData; OpRemember].

(** The episode-end branch (lines 69-87) opens with the dump of the
    replay memory, and nothing else calls it. *)
Definition is_dump (e : event E) : bool :=
  match e with EDumpMemoryToCache _ => true | _ => false end.

Definition episode_end_ran (evs : list (event E)) : bool :=
  existsb is_dump evs.

(** What [evaluate] answered, if it was called and answered. *)
Fixpoint reported_alive (evs : list (event E)) : option bool :=
  match evs with
  | [] => None
  | EEvaluate _ (Ok b) :: _ => Some b
  | _ :: r => reported_alive r
  end.


Definition is_thread_start (e : event E) : bool :=
  match e with EThreadStart _ => true | _ => false end.

Definition is_save (e : event E) : bool :=
  match e with ESaveModelWeights _ _ => true | _ => false end.

(** The rewards remembered since the current episode was announced
    ("Game n starting!"), summed in the order they were remembered. *)
Definition add_reward (acc : Q) (e : event E) : Q :=
  match e with
  | ERemember _ _ reward _ _ _ => acc + reward
  | EPrint (MsgGameStarting _ _) => 0
  | _ => acc
  end.

Definition episode_rewards (tr : list (event E)) : Q :=
  fold_left add_reward tr 0.





(** [n] calls of the tick in a row, each handed the same [dt]. *)
Fixpoint ticks (n : nat) (dt : Q) (s : St) : St :=
  match n with
  | O => s
  | S k => ticks k dt (snd (game_loop dt s))
  end.

(** ** The whole program

    The scheduler calls the tick again and again; between two ticks a
    running training pass may come to its end.  A tick that raises ends
    the program, so runs are made of completed ticks. *)
Inductive step : St -> St -> Prop :=
| step_tick (dt : Q) (s s' : St) :
    game_loop dt s = (Val tt, s') -> step s s'
| step_pass (i : nat) (s s' : St) :
    ref_alive (threads s) i = true ->
    complete i s = (Val tt, s') -> step s s'.

Inductive reachable (w0 : World E) : St -> Prop :=
| reach_initial : reachable w0 (initial w0)
| reach_step (s s' : St) : reachable w0 s -> step s s' -> reachable w0 s'.

(** Training passes in flight. *)
Definition alive_count (ts : list thread) : nat :=
  List.length (filter is_alive ts).

(** The global [training_thread] refers to a live thread. *)
Definition training_running (s : St) : bool :=
  match training_thread (globals s) with
  | Some i => ref_alive (threads s) i
  | None => false
  end.

(** Only the thread the global refers to can be alive. *)
Definition sole_pass (s : St) : Prop :=
  forall j, ref_alive (threads s) j = true ->
            training_thread (globals s) = Some j.


(** Scans a log: no thread is started unless the replay memory was
    dumped, with success, earlier in the log ([dumped] says whether it
    was before the log begins). *)
Fixpoint dumped_before_start (dumped : bool) (evs : list (event E)) : bool :=
  match evs with
  | [] => true
  | EDumpMemoryToCache (Ok _) :: r => dumped_before_start true r
  | EThreadStart _ :: r => dumped && dumped_before_start dumped r
  | _ :: r => dumped_before_start dumped r
  end.

(** What [on_close] prints after the save, by the save's answer. *)
Definition save_report (r : reply (Exn E) unit) : msg E :=
  match r with
  | Ok _ => MsgModelSaved
  | Raise e => MsgSaveError e
  end.

End Program.



(** The reading "an episode ends exactly when the evaluator reports
    not-alive": on every completed, non-skipped tick the episode-end
    branch runs if and only if [evaluate] answered false. *)
Definition ends_only_when_not_alive : Prop :=
  forall (E : Env) (s : St E (Globals E)) (dt : Q),
    skip_frame (globals s) = false ->
    fst (game_loop dt s) = Val tt ->
    (episode_end_ran (tick_events dt s) = true <->
     reported_alive (tick_events dt s) = Some false).

End TrainDeepQ.

(** ** main.py *)

Module Main.

(** The global the tick reads besides the collaborator objects:
    [start_direction] (lines 86-91), the track's start direction,
    normalised when the vector type allows it. *)
Record Globals (E : Env) : Type := mkGlobals {
  start_direction : Dir E
}.

Arguments mkGlobals {E} _.
Arguments start_direction {E} _.

Definition MODEL_PATH : string := "model.h5".

Section Program.
Context {E : Env}.
Local Abbreviation G := (Globals E).
Local Abbreviation St := (St E G).
Local Abbreviation M := (M (Exn E) St).

(** The state when the scheduler takes over: the global holds the
    direction [d] computed on lines 86-91, over the collaborators as
    the top level left them. *)
Definition initial (d : Dir E) (w0 : World E) : St :=
  mkSt (mkGlobals d) w0 [] [].

(** [car.init_position(track.start_point, start_direction)] *)
Definition reinit_car : M unit :=
  p <- attr (start_point E) ;;
  d <- load start_direction ;;
  call (EInitPosition p d) (init_position E p d).

(** Lines 60-68 of the module's top level: load the weights when the
    model file exists.  The driver was constructed on line 58. *)
Definition load_model : M unit :=
  found <- attr (path_exists E MODEL_PATH) ;;
  if found then
    try_except
      (call (ELoadModelWeights MODEL_PATH) (load_model_weights E MODEL_PATH) ;;
       log INFO (MsgWeightsLoaded MODEL_PATH))
      (fun e =>
         log ERROR (MsgLoadFailed MODEL_PATH e) ;;
         log WARNING MsgContinuing)
  else
    log WARNING (MsgModelNotFound MODEL_PATH).

(** [game_loop(dt)], lines 94-147.  [log.exception] writes at level
    ERROR. *)
Definition game_loop (dt : Q) : M unit :=
  def (
    try_except
      (state <- try_except
                  (x <- call EGetInputData (get_input_data E) ;; ret (Some x))
                  (fun e => log DEBUG (MsgInputDataFailed e) ;; ret None) ;;
       cmd <- try_except
                (c <- call (ECalculateCommand false) (calculate_command E false) ;;
                 let '(turn_rate, acceleration_rate, action) := c in
                 ret (turn_rate, acceleration_rate, Some action))
                (fun e => log WARNING (MsgCommandFailed e) ;; ret (0, 0, None)) ;;
       let '(turn_rate, acceleration_rate, action) := cmd in
       try_except
         (call (EMove turn_rate acceleration_rate dt)
               (move E turn_rate acceleration_rate dt))
         (fun e =>
            log ERROR (MsgMoveFailed e) ;;
            reinit_car ;;
            return_) ;;
       done <- try_except
                 (alive <- call (EEvaluate dt) (evaluate E dt) ;; ret (negb alive))
                 (fun e => log ERROR (MsgEvaluateFailed e) ;; ret true) ;;
       if done : bool then
         log INFO MsgEpisodeDone ;;
         try_except reinit_car (fun e => log ERROR (MsgReinitFailed e)) ;;
         try_except (call EResetScore (reset_score E))
                    (fun e => log ERROR (MsgResetFailed e))
       else
         ret tt)
      (fun e =>
         log ERROR (MsgUnhandled e) ;;
         try_except
           (reinit_car ;;
            call EResetScore (reset_score E))
           (fun _ => ret tt))).

End Program.
End Main.

(** ** A small concrete world

    A car on a straight track of [track_len] cells: every move advances
    it by one cell, the score is the cell reached, and the evaluator
    reports not-alive once the car has left the track.  Switches make
    the sensor, the disk and the trainer fail on demand.  The small
    world counts in rationals: its arithmetic rounds nothing. *)

Module Toy.

Inductive exn : Type := SensorError | IOError | TrainError.

Record world : Type := mkWorld {
  car_x : Z;
  track_len : Z;
  ev_score : Q;
  buffered : nat;          (* transitions in memory *)
  cached : nat;            (* transitions in the durable cache *)
  eps : Q;
  sensor_ok : bool;
  disk_ok : bool;
  trainer_ok : bool;
  model_file : option bool (* None: missing; Some b: present, readable iff b *)
}.

Definition with_car (x : Z) (w : world) : world :=
  mkWorld x (track_len w) (ev_score w) (buffered w) (cached w) (eps w)
          (sensor_ok w) (disk_ok w) (trainer_ok w) (model_file w).
Definition with_score (v : Q) (w : world) : world :=
  mkWorld (car_x w) (track_len w) v (buffered w) (cached w) (eps w)
          (sensor_ok w) (disk_ok w) (trainer_ok w) (model_file w).
Definition with_memory (b c : nat) (w : world) : world :=
  mkWorld (car_x w) (track_len w) (ev_score w) b c (eps w)
          (sensor_ok w) (disk_ok w) (trainer_ok w) (model_file w).
Definition with_eps (v : Q) (w : world) : world :=
  mkWorld (car_x w) (track_len w) (ev_score w) (buffered w) (cached w) v
          (sensor_ok w) (disk_ok w) (trainer_ok w) (model_file w).

Definition env : Env := {|
  World := world;
  Obs := Z;
  Action := nat;
  Exn := exn;
  Loss := Q;
  Point := Z;
  Dir := Z;
  get_input_data := fun w =>
    if sensor_ok w then (Ok (car_x w), w) else (Raise SensorError, w);
  calculate_command := fun _ w => (Ok (0, 1, 1%nat), w);
  remember := fun _ _ _ _ _ w => (Ok tt, with_memory (S (buffered w)) (cached w) w);
  dump_memory_to_cache := fun w =>
    (Ok tt, with_memory 0 (cached w + buffered w) w);
  replay_memory := fun batch_size _ w =>
    if trainer_ok w then
      if (Z.of_nat (cached w) <? batch_size)%Z then (Ok None, w)
      else (Ok (Some (1 # 2)), w)
    else (Raise TrainError, w);
  decay_epsilon := fun w => (Ok tt, with_eps (eps w * (99 # 100)) w);
  clear_last_explore := fun w => w;
  epsilon := eps;
  save_model_weights := fun _ w =>
    if disk_ok w then (Ok tt, w) else (Raise IOError, w);
  load_model_weights := fun _ w =>
    match model_file w with
    | Some true => (Ok tt, w)
    | _ => (Raise IOError, w)
    end;
  move := fun _ _ _ w => (Ok tt, with_car (car_x w + 1) w);
  init_position := fun p _ w => (Ok tt, with_car p w);
  start_point := fun _ => 0%Z;
  start_direction := fun _ => 1%Z;
  evaluate := fun _ w =>
    (Ok (car_x w <? track_len w)%Z, with_score (inject_Z (car_x w)) w);
  get_score := fun w => (Ok (ev_score w), w);
  reset_score := fun w => (Ok tt, with_score 0 w);
  path_exists := fun _ w =>
    match model_file w with Some _ => true | None => false end;
  finishes_within := fun _ w => trainer_ok w;
  fl := fun q => q
|}.

(** The world the constructors leave: car on the start cell, nothing
    remembered, everything in working order, no model file. *)
Definition w0 (len : Z) : world :=
  mkWorld 0 len 0 0 0 (8 # 10) true true true None.

(** The same world with its switches set: which of the sensor, the disk
    and the trainer work, and what the model file is. *)
Definition with_faults (sensor disk trainer : bool) (file : option bool)
           (w : world) : world :=
  mkWorld (car_x w) (track_len w) (ev_score w) (buffered w) (cached w) (eps w)
          sensor disk trainer file.

End Toy.

(** ** Reading a run off its log

    Counters and clocks computed from the log of calls, for the
    bookkeeping of the training loop. *)

Module Episode.

Section Observations.
Context {E : Env}.

(** The episode clock as the log tells it: the [dt] of every move made
    since the episode was announced, added in order as floats. *)
Definition add_dt (acc : Q) (e : event E) : Q :=
  match e with
  | EMove _ _ dt _ => fl E (acc + dt)
  | EPrint (MsgGameStarting _ _) => 0
  | _ => acc
  end.

Definition episode_clock (tr : list (event E)) : Q :=
  fold_left add_dt tr 0.

(** How many entries of a log satisfy [p]. *)
Definition count {A : Type} (p : A -> bool) (l : list A) : nat :=
  List.length (filter p l).

Definition dumped (e : event E) : bool :=
  match e with EDumpMemoryToCache (Ok _) => true | _ => false end.

Definition decayed (e : event E) : bool :=
  match e with EDecayEpsilon (Ok _) => true | _ => false end.

Definition reset (e : event E) : bool :=
  match e with EResetScore (Ok _) => true | _ => false end.

Definition announced (e : event E) : bool :=
  match e with EPrint (MsgGameStarting _ _) => true | _ => false end.

Definition replayed (e : event E) : bool :=
  match e with EReplayMemory _ _ _ => true | _ => false end.

Definition replay_gave_loss (e : event E) : bool :=
  match e with EReplayMemory _ _ (Ok (Some _)) => true | _ => false end.

(** Every replay in the log was asked for 1024 transitions and 10
    epochs, the arguments of line 74. *)
Definition standard_replay (e : event E) : bool :=
  match e with
  | EReplayMemory batch_size epochs _ =>
      (batch_size =? 1024)%Z && (epochs =? 10)%Z
  | _ => true
  end.

(** A thread object that was started with those arguments. *)
Definition launched (t : thread) : bool :=
  match t with
  | Created _ _ => false
  | Running batch_size epochs => (batch_size =? 1024)%Z && (epochs =? 10)%Z
  | Finished => true
  end.

Definition finished (t : thread) : bool :=
  match t with Finished => true | _ => false end.

(** The loss a pass records and the line it prints, by the answer of
    [replay_memory] (lines 18-24). *)
Definition loss_of (r : reply (Exn E) (option (Loss E))) : list (Loss E) :=
  match r with
  | Ok (Some l) => [l]
  | _ => []
  end.

Definition pass_report (r : reply (Exn E) (option (Loss E))) : msg E :=
  match r with
  | Ok (Some l) => MsgBgFinished l
  | Ok None => MsgBgNoLoss
  | Raise e => MsgBgError e
  end.

(** The thread the global should refer to: the one created last. *)
Definition newest (ts : list thread) : option nat :=
  match ts with
  | [] => None
  | _ :: r => Some (List.length r)
  end.

(** One score, one dump, one decay, one reset and one announcement per
    finished episode. *)
Definition ledger_balanced (s : St E (TrainDeepQ.Globals E)) : Prop :=
  let n := List.length (TrainDeepQ.scores (globals s)) in
  TrainDeepQ.game_count (globals s) = Z.of_nat n
  /\ count dumped (trace s) = n
  /\ count decayed (trace s) = n
  /\ count reset (trace s) = n
  /\ count announced (trace s) = n.

(** Every thread object was started, with the arguments of line 74; no
    more threads than finished episodes; the global refers to the
    newest; every replay was asked with those arguments. *)
Definition passes_standard (s : St E (TrainDeepQ.Globals E)) : Prop :=
  forallb launched (threads s) = true
  /\ (List.length (threads s) <= List.length (TrainDeepQ.scores (globals s)))%nat
  /\ TrainDeepQ.training_thread (globals s) = newest (threads s)
  /\ forallb standard_replay (trace s) = true.

(** The losses on record are those the replays answered, and every
    replay belongs to a pass that came to its end. *)
Definition losses_accounted (s : St E (TrainDeepQ.Globals E)) : Prop :=
  List.length (TrainDeepQ.losses (globals s)) = count replay_gave_loss (trace s)
  /\ count replayed (trace s) = count finished (threads s).

(** The flag [skip_frame] is up only on the threshold of an episode:
    nothing on the clock, nothing on the score record, no reward
    remembered yet, and at least one episode behind. *)
Definition skip_opens_episode (s : St E (TrainDeepQ.Globals E)) : Prop :=
  (0 <= TrainDeepQ.game_count (globals s))%Z
  /\ (TrainDeepQ.skip_frame (globals s) = true ->
      TrainDeepQ.last_score (globals s) = 0
      /\ TrainDeepQ.time_elapsed (globals s) = 0
      /\ TrainDeepQ.episode_rewards (trace s) = 0
      /\ (0 < TrainDeepQ.game_count (globals s))%Z).

End Observations.
End Episode.

(** ** What a tick of the inference loop may call *)

Module Inference.

(** The calls of [main.py]'s tick: it reads, commands in inference
    mode, moves, evaluates, resets and logs, and nothing else. *)
Definition allowed {E : Env} (e : event E) : bool :=
  match e with
  | EGetInputData _ | ECalculateCommand false _ | EMove _ _ _ _
  | EEvaluate _ _ | EInitPosition _ _ _ | EResetScore _ | ELog _ _ => true
  | _ => false
  end.

Definition resets {E : Env} (e : event E) : bool :=
  match e with
  | EInitPosition _ _ _ | EResetScore _ => true
  | _ => false
  end.

Definition reads {E : Env} (e : event E) : bool :=
  match e with EGetInputData _ => true | _ => false end.

Definition commands {E : Env} (e : event E) : bool :=
  match e with ECalculateCommand _ _ => true | _ => false end.

Definition moves {E : Env} (e : event E) : bool :=
  match e with EMove _ _ _ _ => true | _ => false end.

Definition evaluates {E : Env} (e : event E) : bool :=
  match e with EEvaluate _ _ => true | _ => false end.

Definition reinits {E : Env} (e : event E) : bool :=
  match e with EInitPosition _ _ _ => true | _ => false end.

Definition resets_score {E : Env} (e : event E) : bool :=
  match e with EResetScore _ => true | _ => false end.

(** Scans a log: the score is not reset unless the car was re-placed
    earlier in the log ([placed] says whether it was before the log
    begins). *)
Fixpoint placed_before_reset {E : Env} (placed : bool) (evs : list (event E))
  : bool :=
  match evs with
  | [] => true
  | EInitPosition _ _ _ :: r => placed_before_reset true r
  | EResetScore _ :: r => placed && placed_before_reset placed r
  | _ :: r => placed_before_reset placed r
  end.

(** Ticks of the inference loop one after the other, each with its
    own [dt]. *)
Fixpoint ticks {E : Env} (dts : list Q) (s : St E (Main.Globals E))
  : St E (Main.Globals E) :=
  match dts with
  | [] => s
  | dt :: rest => ticks rest (snd (Main.game_loop dt s))
  end.

(** Every placement on record passed the direction [d]. *)
Definition placed_along {E : Env} (d : Dir E) (evs : list (event E)) : Prop :=
  forall p d' r, In (EInitPosition p d' r) evs -> d' = d.

End Inference.

(** ** A longer run of the small world

    The cache already holds 2000 transitions from earlier sessions.
    The first episode ends on the third tick and starts a pass; the
    pass comes to its end with a loss; then a skipped tick and the
    first tick of the second episode. *)

Module ToyRun.

Definition seasoned : Toy.world := Toy.with_memory 0 2000 (Toy.w0 3).

Definition first_episode_over : St Toy.env (TrainDeepQ.Globals Toy.env) :=
  TrainDeepQ.ticks 3 (1 # 30) (TrainDeepQ.initial (E:=Toy.env) seasoned).

Definition first_pass_over : St Toy.env (TrainDeepQ.Globals Toy.env) :=
  snd (TrainDeepQ.complete 0 first_episode_over).

Definition second_episode : St Toy.env (TrainDeepQ.Globals Toy.env) :=
  TrainDeepQ.ticks 2 (1 # 30) first_pass_over.

End ToyRun.

(** ** The window handlers and the start of the program *)

Module Top.

(** What the top level and the window handlers call besides [Env]: the
    project imports, the constructors, the vector's [normalized], the
    drawer, the window.  The objects constructed live in the world;
    [os.path.exists], [track.start_point], [track.start_direction],
    [car.init_position] and the model loader are those of [Env]. *)
Record Stage (E : Env) : Type := {
  (* lines 11-16 of main.py *)
  import_project : World E -> reply (Exn E) unit * World E;
  (* Track.load_from_file(path) *)
  load_from_file : string -> World E -> reply (Exn E) unit * World E;
  (* Car(width, height) *)
  new_car : Z -> Z -> World E -> reply (Exn E) unit * World E;
  (* v.normalized() *)
  normalized : Dir E -> World E -> reply (Exn E) (Dir E) * World E;
  (* LineEvaluator.load_lines_from_file(car, track, path) *)
  load_lines_from_file : string -> World E -> reply (Exn E) unit * World E;
  (* DeepQDriver(accepted_sensors, layer_count, output_per_hidden) *)
  new_driver : Z -> Z -> Z -> World E -> reply (Exn E) unit * World E;
  (* Drawer(w, h, car, track, evaluator) *)
  new_drawer : Z -> Z -> World E -> reply (Exn E) unit * World E;
  (* pyglet.window.Window(w, h, resizable) *)
  new_window : Z -> Z -> bool -> World E -> reply (Exn E) unit * World E;
  (* PlayerDriver(window) *)
  new_player_driver : World E -> reply (Exn E) unit * World E;
  (* hasattr(p_driver, "register") and callable(...) *)
  has_register : World E -> bool;
  (* p_driver.register(window) *)
  register : World E -> reply (Exn E) unit * World E;
  (* window.clear(), drawer.draw(), evaluator.draw_lines(),
     drawer.resize_canvas(width, height) *)
  clear : World E -> reply (Exn E) unit * World E;
  draw : World E -> reply (Exn E) unit * World E;
  draw_lines : World E -> reply (Exn E) unit * World E;
  resize_canvas : Z -> Z -> World E -> reply (Exn E) unit * World E;
  (* FileNotFoundError(p) *)
  FileNotFoundError : string -> Exn E
}.

(** Text the top level and the handlers of [main.py] log. *)
Inductive note (E : Env) : Type :=
| NoteImportFailed (e : Exn E)               (* "Failed importing project modules: ..." *)
| NoteAssetMissing (p : string)              (* "Required asset missing: ..." *)
| NoteTrackFailed (p : string) (e : Exn E)   (* "Failed to load track file ..." *)
| NoteInitFailed (e : Exn E)                 (* "Failed to initialize car position: ..." *)
| NoteEvaluatorFailed (p : string) (e : Exn E) (* "Failed to create LineEvaluator from ..." *)
| NoteDrawFailed (e : Exn E)                 (* "Drawer.draw() failed: ..." *)
| NoteDrawLinesFailed (e : Exn E)            (* "evaluator.draw_lines() failed: ..." *)
| NoteResizeFailed (e : Exn E).              (* "Error handling resize: ..." *)

(** The log of the top level: the calls of [Env] as before, the calls
    of [Stage], and the logger's entries. *)
Inductive act (E : Env) : Type :=
| ACore (ev : event E)
| AImport (r : reply (Exn E) unit)
| ALoadTrack (path : string) (r : reply (Exn E) unit)
| ACar (width height : Z) (r : reply (Exn E) unit)
| ANormalized (d : Dir E) (r : reply (Exn E) (Dir E))
| ALoadLines (path : string) (r : reply (Exn E) unit)
| ADriver (accepted_sensors layer_count output_per_hidden : Z)
          (r : reply (Exn E) unit)
| ADrawer (width height : Z) (r : reply (Exn E) unit)
| AWindow (width height : Z) (resizable : bool) (r : reply (Exn E) unit)
| APlayerDriver (r : reply (Exn E) unit)
| ARegister (r : reply (Exn E) unit)
| AClear (r : reply (Exn E) unit)
| ADraw (r : reply (Exn E) unit)
| ADrawLines (r : reply (Exn E) unit)
| AResizeCanvas (width height : Z) (r : reply (Exn E) unit)
| ANote (lvl : level) (n : note E).

Arguments NoteImportFailed {E} e.
Arguments NoteAssetMissing {E} p.
Arguments NoteTrackFailed {E} p e.
Arguments NoteInitFailed {E} e.
Arguments NoteEvaluatorFailed {E} p e.
Arguments NoteDrawFailed {E} e.
Arguments NoteDrawLinesFailed {E} e.
Arguments NoteResizeFailed {E} e.
Arguments ACore {E} ev.
Arguments AImport {E} r.
Arguments ALoadTrack {E} path r.
Arguments ACar {E} width height r.
Arguments ANormalized {E} d r.
Arguments ALoadLines {E} path r.
Arguments ADriver {E} accepted_sensors layer_count output_per_hidden r.
Arguments ADrawer {E} width height r.
Arguments AWindow {E} width height resizable r.
Arguments APlayerDriver {E} r.
Arguments ARegister {E} r.
Arguments AClear {E} r.
Arguments ADraw {E} r.
Arguments ADrawLines {E} r.
Arguments AResizeCanvas {E} width height r.
Arguments ANote {E} lvl n.

(** Interpreter state of the top level: the collaborators and the log. *)
Record Scene (E : Env) : Type := mkScene {
  stage : World E;
  acts : list (act E)
}.

Arguments mkScene {E} _ _.
Arguments stage {E} _.
Arguments acts {E} _.

Section Store.
Context {E : Env}.
Local Abbreviation MT := (M (Exn E) (Scene E)).

Definition record (a : act E) (s : Scene E) : Scene E :=
  mkScene (stage s) (acts s ++ [a]).

(** Call a method: as [call], on the top level's state. *)
Definition invoke {A} (ev : reply (Exn E) A -> act E)
           (op : World E -> reply (Exn E) A * World E) : MT A :=
  fun s =>
    let (r, w1) := op (stage s) in
    let s1 := record (ev r) (mkScene w1 (acts s)) in
    match r with
    | Ok a => (Val a, s1)
    | Raise e => (Exc e, s1)
    end.

Definition look {A} (f : World E -> A) : MT A := gets (fun s => f (stage s)).

Definition note_ (lvl : level) (n : note E) : MT unit :=
  modify (record (ANote lvl n)).

(** [raise e], and the bare [raise] of a handler bound to [e]. *)
Definition raise {A} (e : Exn E) : MT A := fun s => (Exc e, s).

(** Run a block written over the state of a game loop: it starts on
    the collaborators with the globals [g] and no threads, and its
    calls go to the log in order. *)
Definition core {G A} (g : G) (m : M (Exn E) (St E G) A) : MT A :=
  fun s =>
    let (o, s1) := m (mkSt g (stage s) [] []) in
    (o, mkScene (world s1) (acts s ++ map ACore (trace s1))).

(** The entries a block adds to the log when run from [s]. *)
Definition acts_of {A} (m : MT A) (s : Scene E) : list (act E) :=
  skipn (List.length (acts s)) (acts (snd (m s))).

(** The exception a logged call raised, if it raised. *)
Definition fault (a : act E) : option (Exn E) :=
  match a with
  | ACore ev => fault_of ev
  | AImport r | ALoadTrack _ r | ACar _ _ r | ALoadLines _ r
  | ADriver _ _ _ r | ADrawer _ _ r | AWindow _ _ _ r | APlayerDriver r
  | ARegister r | AClear r | ADraw r | ADrawLines r
  | AResizeCanvas _ _ r => raised r
  | ANormalized _ r => raised r
  | ANote _ _ => None
  end.

Definition failed (a : act E) : bool :=
  match fault a with Some _ => true | None => false end.

Definition is_note (a : act E) : bool :=
  match a with ANote _ _ => true | _ => false end.

(** The last entry of a log. *)
Definition final {A : Type} (l : list A) : option A := hd_error (rev l).

(** The calls of a log, without the logger's entries. *)
Definition calls (l : list (act E)) : list (act E) :=
  filter (fun a => negb (is_note a)) l.

End Store.
End Top.

(** ** main.py, top level and handlers *)

Module MainTop.
Import Top.

Definition TRACK_PATH : string := "assets/tracks/track-1.trk".
Definition EVAL_LINES_PATH : string := "assets/evaluator_lines/track-1.lns".

Section Program.
Context {E : Env} (T : Stage E).
Local Abbreviation MT := (M (Exn E) (Scene E)).

(** Lines 10-19: the imports; a failure is logged and raised again. *)
Definition imports : MT unit :=
  try_except
    (invoke AImport (import_project T))
    (fun e => note_ ERROR (NoteImportFailed e) ;; raise e).

(** Lines 26-29: [for p in ps: if not os.path.exists(p): ... raise]. *)
Fixpoint check_assets (ps : list string) : MT unit :=
  match ps with
  | [] => ret tt
  | p :: rest =>
      found <- look (path_exists E p) ;;
      if found : bool then check_assets rest
      else note_ ERROR (NoteAssetMissing p) ;; raise (FileNotFoundError T p)
  end.

(** Lines 32-36. *)
Definition load_track : MT unit :=
  try_except
    (invoke (ALoadTrack TRACK_PATH) (load_from_file T TRACK_PATH))
    (fun e => note_ ERROR (NoteTrackFailed TRACK_PATH e) ;; raise e).

(** [car.init_position(track.start_point, d)] at the top level. *)
Definition init_position_at (p : Point E) (d : Dir E) : MT unit :=
  invoke (fun r => ACore (EInitPosition p d r)) (init_position E p d).

(** Lines 38-47: the car, placed on the start; if that fails, one more
    attempt with the normalised direction, whose failure is raised. *)
Definition place_car : MT unit :=
  invoke (ACar 24 45) (new_car T 24 45) ;;
  try_except
    (p <- look (start_point E) ;;
     d <- look (start_direction E) ;;
     init_position_at p d)
    (fun e =>
       note_ ERROR (NoteInitFailed e) ;;
       try_except
         (p <- look (start_point E) ;;
          d <- look (start_direction E) ;;
          n <- invoke (ANormalized d) (normalized T d) ;;
          init_position_at p n)
         (fun e' => raise e')).

(** Lines 50-55. *)
Definition load_evaluator : MT unit :=
  try_except
    (invoke (ALoadLines EVAL_LINES_PATH) (load_lines_from_file T EVAL_LINES_PATH))
    (fun e => note_ ERROR (NoteEvaluatorFailed EVAL_LINES_PATH e) ;; raise e).

(** Lines 58-68: the driver, then [Main.load_model].  The global
    [start_direction] is not bound yet and [Main.load_model] does not
    read it; the block is run with the track's direction in its place. *)
Definition load_driver : MT unit :=
  invoke (ADriver 10 8 32) (new_driver T 10 8 32) ;;
  d <- look (start_direction E) ;;
  core (Main.mkGlobals d) Main.load_model.

(** Lines 71-84: drawer, window, player driver, optional registration. *)
Definition open_window : MT unit :=
  invoke (ADrawer 1280 720) (new_drawer T 1280 720) ;;
  invoke (AWindow 1280 720 true) (new_window T 1280 720 true) ;;
  invoke APlayerDriver (new_player_driver T) ;;
  reg <- look (has_register T) ;;
  if reg : bool then
    try_except (invoke ARegister (register T)) (fun _ => ret tt)
  else ret tt.

(** Lines 86-91: the value of the global [start_direction]. *)
Definition bind_start_direction : MT (Dir E) :=
  d <- look (start_direction E) ;;
  try_except (invoke (ANormalized d) (normalized T d)) (fun _ => ret d).

(** Lines 10-91 in order; the result is the global [start_direction]
    the game loop will read. *)
Definition startup : MT (Dir E) :=
  imports ;;
  check_assets [TRACK_PATH; EVAL_LINES_PATH] ;;
  load_track ;;
  place_car ;;
  load_evaluator ;;
  load_driver ;;
  open_window ;;
  bind_start_direction.

(** [on_draw], lines 151-161. *)
Definition on_draw : MT unit :=
  def (
    invoke AClear (clear T) ;;
    try_except (invoke ADraw (draw T))
               (fun e => note_ ERROR (NoteDrawFailed e)) ;;
    try_except (invoke ADrawLines (draw_lines T))
               (fun e => note_ ERROR (NoteDrawLinesFailed e))).

(** [on_resize(width, height)], lines 163-169. *)
Definition on_resize (width height : Z) : MT unit :=
  def (
    try_except
      (invoke (AResizeCanvas width height) (resize_canvas T width height) ;;
       invoke ADraw (draw T))
      (fun e => note_ ERROR (NoteResizeFailed e))).

End Program.

(** The steps whose failure the top level does not survive: a raise of
    one of them is the exception startup ends with. *)
Definition required_fault {E : Env} (a : act E) : option (Exn E) :=
  match a with
  | AImport r | ALoadTrack _ r | ACar _ _ r | ALoadLines _ r
  | ADriver _ _ _ r | ADrawer _ _ r | AWindow _ _ _ r
  | APlayerDriver r => raised r
  | _ => None
  end.

(** A raise of the second placement attempt or of the normalisation. *)
Definition placement_fault {E : Env} (a : act E) : option (Exn E) :=
  match a with
  | ACore (EInitPosition _ _ r) => raised r
  | ANormalized _ r => raised r
  | _ => None
  end.

Definition is_placement {E : Env} (a : act E) : bool :=
  match a with ACore (EInitPosition _ _ _) => true | _ => false end.

End MainTop.

(** ** train_deep_q.py, the drawing handlers *)

Module TrainTop.
Import Top.

Section Program.
Context {E : Env} (T : Stage E).
Local Abbreviation MT := (M (Exn E) (Scene E)).

(** [on_draw], lines 93-97. *)
Definition on_draw : MT unit :=
  def (
    invoke AClear (clear T) ;;
    invoke ADraw (draw T) ;;
    invoke ADrawLines (draw_lines T)).

(** [on_resize(width, height)], lines 100-103. *)
Definition on_resize (width height : Z) : MT unit :=
  def (
    invoke (AResizeCanvas width height) (resize_canvas T width height) ;;
    invoke ADraw (draw T)).

End Program.
End TrainTop.

(** ** The small world, at the top level

    The project modules import, the files of the small world are those
    its model switch says, every constructor works, vectors normalise
    to the unit step, and the screen draws as long as the disk works. *)

Module ToyTop.
Import Top.

Definition stage : Stage Toy.env := {|
  import_project := fun w => (Ok tt, w);
  load_from_file := fun _ w => (Ok tt, w);
  new_car := fun _ _ w => (Ok tt, w);
  normalized := fun (d : Dir Toy.env) (w : World Toy.env) =>
    if (d =? 0)%Z then (Raise Toy.SensorError, w) else (Ok (Z.sgn d), w);
  load_lines_from_file := fun _ w => (Ok tt, w);
  new_driver := fun _ _ _ w => (Ok tt, w);
  new_drawer := fun _ _ w => (Ok tt, w);
  new_window := fun _ _ _ w => (Ok tt, w);
  new_player_driver := fun w => (Ok tt, w);
  has_register := fun _ => true;
  register := fun w => (Ok tt, w);
  clear := fun w => (Ok tt, w);
  draw := fun (w : World Toy.env) =>
    if Toy.disk_ok w then (Ok tt, w) else (Raise Toy.IOError, w);
  draw_lines := fun w => (Ok tt, w);
  resize_canvas := fun _ _ w => (Ok tt, w);
  FileNotFoundError := fun _ => Toy.IOError
|}.

(** Before anything is constructed: nothing logged. *)
Definition blank (w : Toy.world) : Scene Toy.env :=
  mkScene (E:=Toy.env) w [].

End ToyTop.

(** ** Binary64

    The floats of Python are IEEE 754 binary64.  [round q] is the float
    nearest to [q], ties to even: 53 bits of mantissa, exponents from
    -1074 (subnormals included).  Overflow is left out: beyond the
    largest float the function keeps rounding to 53 bits. *)

Module Binary64.

(** [n / d] over [2 ^ e], as a numerator and a denominator. *)
Definition scaled (n d : positive) (e : Z) : Z * Z :=
  if (0 <=? e)%Z then (Zpos n, Zpos d * 2 ^ e)%Z
  else (Zpos n * 2 ^ (- e), Zpos d)%Z.

(** The exponent of the last bit of the mantissa of [n / d]. *)
Definition ulp_exponent (n d : positive) : Z :=
  let e0 := (Z.log2 (Zpos n) - Z.log2 (Zpos d) - 52)%Z in
  let (num, den) := scaled n d e0 in
  let e1 := if (num / den <? 2 ^ 52)%Z then (e0 - 1)%Z else e0 in
  Z.max e1 (-1074).

Definition round_pos (n d : positive) : Q :=
  let e := ulp_exponent n d in
  let (num, den) := scaled n d e in
  let m := (num / den)%Z in
  let m' := match (2 * (num mod den) ?= den)%Z with
            | Lt => m
            | Gt => (m + 1)%Z
            | Eq => if Z.even m then m else (m + 1)%Z
            end in
  Qred (if (0 <=? e)%Z then inject_Z (m' * 2 ^ e)
        else Qmake m' (Z.to_pos (2 ^ (- e)))).

Definition round (q : Q) : Q :=
  match Qnum q with
  | Z0 => 0
  | Zpos n => round_pos n (Qden q)
  | Zneg n => - round_pos n (Qden q)
  end.

End Binary64.

(** ** The small world in floats

    The same car and track, with binary64 arithmetic and an evaluator
    that keeps its score in tenths: 0.1 on the first cell, 0.2 on the
    second, 0.9 on the third. *)

Module Toy64.

Definition score_at (x : Z) : Q :=
  match x with
  | 1%Z => Binary64.round (1 # 10)
  | 2%Z => Binary64.round (2 # 10)
  | 3%Z => Binary64.round (9 # 10)
  | _ => 0
  end.

Definition env : Env := {|
  World := Toy.world;
  Obs := Z;
  Action := nat;
  Exn := Toy.exn;
  Loss := Q;
  Point := Z;
  Dir := Z;
  get_input_data := get_input_data Toy.env;
  calculate_command := calculate_command Toy.env;
  remember := remember Toy.env;
  dump_memory_to_cache := dump_memory_to_cache Toy.env;
  replay_memory := replay_memory Toy.env;
  decay_epsilon := decay_epsilon Toy.env;
  clear_last_explore := clear_last_explore Toy.env;
  epsilon := epsilon Toy.env;
  save_model_weights := save_model_weights Toy.env;
  load_model_weights := load_model_weights Toy.env;
  move := move Toy.env;
  init_position := init_position Toy.env;
  start_point := start_point Toy.env;
  start_direction := start_direction Toy.env;
  evaluate := fun _ (w : Toy.world) =>
    (Ok (Toy.car_x w <? Toy.track_len w)%Z,
     Toy.with_score (score_at (Toy.car_x w)) w);
  get_score := get_score Toy.env;
  reset_score := reset_score Toy.env;
  path_exists := path_exists Toy.env;
  finishes_within := finishes_within Toy.env;
  fl := Binary64.round
|}.

End Toy64.

(** * Proofs *)

Unset Implicit Arguments.

(** ** Running the interpreter symbolically *)

(** The state is kept as a record of its fields, so that every write
    reduces at once. *)
Arguments set_globals {E G} f s /.
Arguments set_world {E G} w s /.
Arguments set_threads {E G} ts s /.
Arguments emit {E G} ev s /.
Arguments TrainDeepQ.set_last_score {E} v g /.
Arguments TrainDeepQ.set_time_elapsed {E} v g /.
Arguments TrainDeepQ.set_game_count {E} v g /.
Arguments TrainDeepQ.set_skip_frame {E} v g /.
Arguments TrainDeepQ.set_losses {E} v g /.
Arguments TrainDeepQ.set_scores {E} v g /.
Arguments TrainDeepQ.set_training_thread {E} v g /.

Ltac unfold_py H :=
  unfold TrainDeepQ.game_loop, TrainDeepQ.on_close, TrainDeepQ.thread_join,
         TrainDeepQ.complete, TrainDeepQ._background_replay,
         TrainDeepQ.thread_is_alive, TrainDeepQ.Thread, TrainDeepQ.thread_start,
         Main.game_loop, Main.load_model, Main.reinit_car,
         def, try_except, bind, call, load, store, attr, set_attr, print, log,
         gets, modify, ret, return_ in H.

Ltac simp_py H :=
  cbn -[Qplus Qminus Qle_bool Qmult Z.shiftl Z.add nth_error
        TrainDeepQ.update TrainDeepQ.ref_alive] in H.

(** Case on the answer of the next call in [H]. *)
Ltac next_call H :=
  match type of H with
  | context [?c] =>
      lazymatch type of c with
      | (reply _ _ * World _)%type =>
          lazymatch c with
          | (_, _) => fail
          | _ =>
            let a := fresh "a" in
            let e := fresh "e" in
            let w := fresh "w" in
            let C := fresh "C" in
            destruct c as [[a|e] w] eqn:C;
            [ lazymatch type of a with
              | (_ * _ * _)%type => destruct a as [[? ?] ?]
              | unit => destruct a
              | _ => idtac
              end | ];
            simp_py H
          end
      end
  end.

Lemma skipn_own_length (A : Type) (l d : list A) :
  skipn (List.length l) (l ++ d) = d.
Proof.
  induction l as [|x l IH]; [reflexivity | exact IH].
Qed.

Section TrainFacts.
Import TrainDeepQ.
Context {E : Env}.
Local Abbreviation St := (St E (Globals E)).

Lemma skip_tick (s : St) (dt : Q) :
  skip_frame (globals s) = true ->
  game_loop dt s = (Val tt, set_globals (set_skip_frame false) s).
Proof.
  intros Hs.
  unfold game_loop, def, bind, load, store, gets, modify, return_.
  cbn. rewrite Hs. reflexivity.
Qed.

Lemma update_fresh (f : thread -> thread) (ts : list thread) (t : thread) :
  update (List.length ts) f (ts ++ [t]) = ts ++ [f t].
Proof.
  induction ts as [|x ts IH]; cbn; [reflexivity | now rewrite IH].
Qed.

Ltac leaf R :=
  injection R as <-; cbn [app globals world threads trace];
  repeat rewrite <- app_assoc; cbn [app]; try rewrite update_fresh.

(** Everything a completed, non-skipped tick did. *)
Lemma tick_completed (s s' : St) (dt : Q) :
  skip_frame (globals s) = false ->
  game_loop dt s = (Val tt, s') ->
  exists state turn_rate acceleration_rate action alive score score' new_state
         w1 w2 w3 w4 w5 w6 w7 w8,
    get_input_data E (world s) = (Ok state, w1) /\
    calculate_command E true w1 = (Ok (turn_rate, acceleration_rate, action), w2) /\
    move E turn_rate acceleration_rate dt w2 = (Ok tt, w3) /\
    evaluate E dt w3 = (Ok alive, w4) /\
    get_score E w4 = (Ok score, w5) /\
    get_score E w5 = (Ok score', w6) /\
    get_input_data E w6 = (Ok new_state, w7) /\
    remember E state action (fl E (score - last_score (globals s))) new_state
             (negb alive) w7 = (Ok tt, w8) /\
    let body := body_events dt (last_score (globals s)) state turn_rate
                  acceleration_rate action alive score score' new_state in
    let g := globals s in
    if negb alive || Qle_bool 300 (fl E (time_elapsed g + dt)) then
      exists final w9 w10 w11 w12 w13,
        dump_memory_to_cache E w8 = (Ok tt, w9) /\
        get_score E w9 = (Ok final, w10) /\
        decay_epsilon E w10 = (Ok tt, w11) /\
        let w11' := clear_last_explore E w11 in
        init_position E (start_point E w11') (start_direction E w11') w11'
          = (Ok tt, w12) /\
        reset_score E w12 = (Ok tt, w13) /\
        let closing :=
          [EGetScore (Ok final); EDecayEpsilon (Ok tt);
           EPrint (MsgGameStarting (game_count g + 1) (epsilon E w11'));
           EInitPosition (start_point E w11') (start_direction E w11') (Ok tt);
           EResetScore (Ok tt)] in
        let g' th := mkGlobals 0 0 (game_count g + 1)%Z true (losses g)
                       (scores g ++ [fl E (final + 100)]) th in
        let opening :=
          [EDumpMemoryToCache (Ok tt); EPrint (MsgGameEnded (game_count g))] in
        if training_running s then
          s' = mkSt (g' (training_thread g)) w13 (threads s)
                 (trace s ++ body ++ opening ++ [EPrint MsgTrainingSkipped] ++ closing)
        else
          s' = mkSt (g' (Some (List.length (threads s)))) w13
                 (threads s ++ [Running (Z.shiftl 1 10) 10])
                 (trace s ++ body ++ opening
                    ++ [EThreadStart (List.length (threads s))] ++ closing)
    else
      s' = mkSt (set_last_score score' (set_time_elapsed (fl E (time_elapsed g + dt)) g))
             w8 (threads s) (trace s ++ body).
Proof.
  destruct s as [[base elapsed n skip ls sc th] w ts tr].
  cbn [globals world threads trace last_score time_elapsed game_count
       skip_frame losses scores training_thread].
  intros -> R.
  unfold_py R. simp_py R.
  do 8 (next_call R; try discriminate R).
  do 16 eexists.
  repeat (split; [first [eassumption | reflexivity]|]).
  cbv zeta. unfold body_events, training_running.
  cbn [globals world threads trace last_score time_elapsed game_count
       skip_frame losses scores training_thread set_last_score set_time_elapsed].
  destruct (negb a1 || Qle_bool 300 (fl E (elapsed + dt))); simp_py R.
  - next_call R; try discriminate R.
    destruct th as [i|]; simp_py R.
    + destruct (ref_alive ts i); simp_py R.
      * do 4 (next_call R; try discriminate R).
        do 6 eexists. repeat (split; [first [eassumption | reflexivity]|]).
        leaf R. reflexivity.
      * do 4 (next_call R; try discriminate R).
        do 6 eexists. repeat (split; [first [eassumption | reflexivity]|]).
        leaf R. reflexivity.
    + do 4 (next_call R; try discriminate R).
      do 6 eexists. repeat (split; [first [eassumption | reflexivity]|]).
      leaf R. reflexivity.
  - leaf R. reflexivity.
Qed.

(** The calls of a completed tick, read off the log. *)
Lemma tick_events_eq (s s' : St) (dt : Q) (evs : list (event E)) :
  game_loop dt s = (Val tt, s') ->
  trace s' = trace s ++ evs ->
  tick_events dt s = evs.
Proof.
  intros R T. unfold tick_events, events_of.
  rewrite R. cbn [snd]. rewrite T. apply skipn_own_length.
Qed.

End TrainFacts.

(** C10: the tick that finds [skip_frame] set does nothing but clear the
    flag: it completes, makes no call at all (no move, no evaluate, no
    remember), leaves the collaborators, the threads and every other
    global, [time_elapsed] included, as they were. *)
Theorem skip_tick_does_nothing (E : Env) (s : St E (TrainDeepQ.Globals E)) (dt : Q) :
  TrainDeepQ.skip_frame (globals s) = true ->
  TrainDeepQ.game_loop dt s
    = (Val tt, set_globals (TrainDeepQ.set_skip_frame false) s)
  /\ TrainDeepQ.tick_events dt s = []
  /\ world (snd (TrainDeepQ.game_loop dt s)) = world s
  /\ threads (snd (TrainDeepQ.game_loop dt s)) = threads s
  /\ TrainDeepQ.time_elapsed (globals (snd (TrainDeepQ.game_loop dt s)))
     = TrainDeepQ.time_elapsed (globals s)
  /\ globals (snd (TrainDeepQ.game_loop dt s))
     = TrainDeepQ.mkGlobals
         (TrainDeepQ.last_score (globals s)) (TrainDeepQ.time_elapsed (globals s))
         (TrainDeepQ.game_count (globals s)) false
         (TrainDeepQ.losses (globals s)) (TrainDeepQ.scores (globals s))
         (TrainDeepQ.training_thread (globals s)).
Proof.
  intros Hs. pose proof (skip_tick s dt Hs) as R.
  split; [exact R|].
  split.
  - eapply tick_events_eq; [exact R|]. cbn. now rewrite app_nil_r.
  - rewrite R. cbn. repeat split.
Qed.

(** The tick right after an episode reset, in the small world: the flag
    is set, and the tick only clears it. *)
Lemma skip_tick_does_nothing_witness :
  let s := TrainDeepQ.ticks 3 (1 # 30) (TrainDeepQ.initial (E:=Toy.env) (Toy.w0 3)) in
  TrainDeepQ.skip_frame (globals s) = true
  /\ TrainDeepQ.tick_events (1 # 30) s = []
  /\ world (snd (TrainDeepQ.game_loop (1 # 30) s)) = world s.
Proof.
  intros s.
  assert (Hs : TrainDeepQ.skip_frame (globals s) = true) by reflexivity.
  destruct (@skip_tick_does_nothing Toy.env s (1 # 30) Hs)
    as (_ & Hev & Hw & _).
  split; [exact Hs | split; [exact Hev | exact Hw]].
Defined.

(** Whatever the outcome of a non-skipped tick, its calls to the five
    operations follow the program order as far as the tick got. *)
Lemma tick_order_prefix (E : Env) (s : St E (TrainDeepQ.Globals E)) (dt : Q) :
  TrainDeepQ.skip_frame (globals s) = false ->
  exists rest,
    TrainDeepQ.ops_of (TrainDeepQ.tick_events dt s) ++ rest = TrainDeepQ.tick_order.
Proof.
  unfold TrainDeepQ.tick_events, events_of.
  destruct (TrainDeepQ.game_loop dt s) as [o s'] eqn:R.
  destruct s as [[base elapsed n skip ls sc th] w ts tr].
  unfold_py R. simp_py R. cbn [globals trace TrainDeepQ.skip_frame].
  intros ->. simp_py R.
  assert (done_ : forall d : list (event E),
             (exists rest, TrainDeepQ.ops_of d ++ rest = TrainDeepQ.tick_order) ->
             exists rest,
               TrainDeepQ.ops_of (skipn (List.length tr) (tr ++ d)) ++ rest
               = TrainDeepQ.tick_order)
    by (intros d; now rewrite skipn_own_length).
  do 8 (next_call R;
        [| injection R as <- <-; cbn [snd trace];
           repeat rewrite <- app_assoc; cbn [app];
           apply done_; eexists; reflexivity]).
  destruct (negb a1 || Qle_bool 300 (fl E (elapsed + dt))); simp_py R.
  - next_call R;
      [| injection R as <- <-; cbn [snd trace];
         repeat rewrite <- app_assoc; cbn [app];
         apply done_; eexists; reflexivity].
    destruct th as [i|]; simp_py R;
      [destruct (TrainDeepQ.ref_alive ts i); simp_py R|];
      do 4 (next_call R;
            [| injection R as <- <-; cbn [snd trace];
               repeat rewrite <- app_assoc; cbn [app];
               apply done_; eexists; reflexivity]);
      injection R as <- <-; cbn [snd trace];
      repeat rewrite <- app_assoc; cbn [app];
      apply done_; exists []; reflexivity.
  - injection R as <- <-; cbn [snd trace];
      repeat rewrite <- app_assoc; cbn [app];
      apply done_; exists []; reflexivity.
Qed.

(** C1: on every non-skipped tick the calls to the five operations
    come in program order, as far as the tick gets; and on every
    completed one the log reads: the driver reads the state, chooses
    the command (in training mode), the car moves by that command over
    [dt], the evaluator evaluates over [dt], the score is read (twice),
    the driver reads the next state, and the transition (state, action,
    reward, next state, done) is remembered with [done] the negation of
    the evaluator's answer.  None of these operations is called again
    in the tick. *)
Theorem tick_operations_in_order (E : Env) (s : St E (TrainDeepQ.Globals E)) (dt : Q) :
  TrainDeepQ.skip_frame (globals s) = false ->
  (exists rest,
     TrainDeepQ.ops_of (TrainDeepQ.tick_events dt s) ++ rest = TrainDeepQ.tick_order)
  /\ (fst (TrainDeepQ.game_loop dt s) = Val tt ->
      exists state turn_rate acceleration_rate action alive score score' new_state rest,
        TrainDeepQ.tick_events dt s =
          [EGetInputData (Ok state);
           ECalculateCommand true (Ok (turn_rate, acceleration_rate, action));
           EMove turn_rate acceleration_rate dt (Ok tt);
           EEvaluate dt (Ok alive);
           EGetScore (Ok score);
           EGetScore (Ok score');
           EGetInputData (Ok new_state);
           ERemember state action
                      (fl E (score - TrainDeepQ.last_score (globals s)))
                     new_state (negb alive) (Ok tt)]
          ++ rest
        /\ forallb (fun e => negb (TrainDeepQ.is_tick_op e)) rest = true).
Proof.
  intros Hs. split; [exact (tick_order_prefix E s dt Hs)|]. intros H.
  destruct (TrainDeepQ.game_loop dt s) as [o s'] eqn:R. cbn [fst] in H. subst o.
  destruct (tick_completed s s' dt Hs R)
    as (state & tr & ar & action & alive & score & score' & new_state &
        w1 & w2 & w3 & w4 & w5 & w6 & w7 & w8 & _ & _ & _ & _ & _ & _ & _ & _ & B).
  cbv zeta in B.
  exists state, tr, ar, action, alive, score, score', new_state.
  destruct (negb alive || Qle_bool 300 (fl E (TrainDeepQ.time_elapsed (globals s) + dt))).
  - destruct B as (final & w9 & w10 & w11 & w12 & w13 & _ & _ & _ & _ & _ & B).
    destruct (TrainDeepQ.training_running s); subst s'; eexists;
      (split; [eapply tick_events_eq; [exact R | cbn [trace]; reflexivity]
              | reflexivity]).
  - subst s'. exists []. split; [|reflexivity].
    eapply tick_events_eq; [exact R|]. cbn [trace]. now rewrite app_nil_r.
Qed.

(** The first tick of the small world, and a tick whose sensor fails. *)
Lemma tick_operations_in_order_witness :
  let s := TrainDeepQ.initial (E:=Toy.env) (Toy.w0 3) in
  TrainDeepQ.skip_frame (globals s) = false
  /\ fst (TrainDeepQ.game_loop (1 # 30) s) = Val tt
  /\ (exists rest,
        TrainDeepQ.ops_of (TrainDeepQ.tick_events (1 # 30) s) ++ rest
        = TrainDeepQ.tick_order)
  /\ exists state turn_rate acceleration_rate action alive score score' new_state rest,
       TrainDeepQ.tick_events (1 # 30) s =
         [EGetInputData (Ok state);
          ECalculateCommand true (Ok (turn_rate, acceleration_rate, action));
          EMove turn_rate acceleration_rate (1 # 30) (Ok tt);
          EEvaluate (1 # 30) (Ok alive);
          EGetScore (Ok score);
          EGetScore (Ok score');
          EGetInputData (Ok new_state);
          ERemember state action (score - TrainDeepQ.last_score (globals s))
                    new_state (negb alive) (Ok tt)]
         ++ rest
       /\ forallb (fun e => negb (TrainDeepQ.is_tick_op e)) rest = true.
Proof.
  intros s.
  assert (Hs : TrainDeepQ.skip_frame (globals s) = false) by reflexivity.
  assert (Hc : fst (TrainDeepQ.game_loop (1 # 30) s) = Val tt)
    by (vm_compute; reflexivity).
  destruct (@tick_operations_in_order Toy.env s (1 # 30) Hs) as [Hp Hd].
  split; [exact Hs | split; [exact Hc | split; [exact Hp | exact (Hd Hc)]]].
Defined.

Lemma end_condition (alive : bool) (t : Q) :
  negb alive || Qle_bool 300 t = true <-> alive = false \/ 300 <= t.
Proof.
  rewrite orb_true_iff, negb_true_iff, Qle_bool_iff. reflexivity.
Qed.

(** C2, as the code has it: on every completed, non-skipped tick the
    episode-end branch runs if and only if the evaluator answered
    not-alive or the episode has lasted 300 seconds, this tick's [dt]
    included. *)
Theorem episode_ends_on_death_or_timeout (E : Env) (s : St E (TrainDeepQ.Globals E)) (dt : Q) :
  TrainDeepQ.skip_frame (globals s) = false ->
  fst (TrainDeepQ.game_loop dt s) = Val tt ->
  exists alive,
    TrainDeepQ.reported_alive (TrainDeepQ.tick_events dt s) = Some alive
    /\ (TrainDeepQ.episode_end_ran (TrainDeepQ.tick_events dt s) = true <->
        alive = false
        \/ 300 <= fl E (TrainDeepQ.time_elapsed (globals s) + dt)).
Proof.
  intros Hs H.
  destruct (TrainDeepQ.game_loop dt s) as [o s'] eqn:R. cbn [fst] in H. subst o.
  destruct (tick_completed s s' dt Hs R)
    as (state & tr & ar & action & alive & score & score' & new_state &
        w1 & w2 & w3 & w4 & w5 & w6 & w7 & w8 & _ & _ & _ & _ & _ & _ & _ & _ & B).
  cbv zeta in B. exists alive.
  rewrite <- end_condition.
  destruct (negb alive || Qle_bool 300 (fl E (TrainDeepQ.time_elapsed (globals s) + dt))).
  - destruct B as (final & w9 & w10 & w11 & w12 & w13 & _ & _ & _ & _ & _ & B).
    destruct (TrainDeepQ.training_running s); subst s';
      rewrite (tick_events_eq s _ dt _ R eq_refl); split; (reflexivity || tauto).
  - subst s'. rewrite (tick_events_eq s _ dt _ R eq_refl). split; [reflexivity|].
    split; [intros F; discriminate F | intros F; discriminate F].
Qed.

Lemma episode_ends_on_death_or_timeout_witness :
  let s := TrainDeepQ.ticks 2 (1 # 30) (TrainDeepQ.initial (E:=Toy.env) (Toy.w0 3)) in
  TrainDeepQ.skip_frame (globals s) = false
  /\ fst (TrainDeepQ.game_loop (1 # 30) s) = Val tt
  /\ exists alive,
       TrainDeepQ.reported_alive (TrainDeepQ.tick_events (1 # 30) s) = Some alive
       /\ (TrainDeepQ.episode_end_ran (TrainDeepQ.tick_events (1 # 30) s) = true <->
           alive = false \/ 300 <= TrainDeepQ.time_elapsed (globals s) + (1 # 30)).
Proof.
  intros s.
  split; [reflexivity | split; [reflexivity |]].
  apply (@episode_ends_on_death_or_timeout Toy.env s (1 # 30)); reflexivity.
Defined.

(** C2 as stated fails: with 299.99 seconds on the episode clock and the
    car alive on a long track, one more tick of 1/30 s takes the clock
    past 300; the evaluator answers alive and the episode-end branch
    runs all the same. *)
Lemma timeout_ends_episode_of_live_car :
  ~ TrainDeepQ.ends_only_when_not_alive.
Proof.
  intros claim.
  pose (s := set_globals (TrainDeepQ.set_time_elapsed (29999 # 100))
               (TrainDeepQ.initial (E:=Toy.env) (Toy.w0 100000))).
  assert (unskipped : TrainDeepQ.skip_frame (globals s) = false)
    by (vm_compute; reflexivity).
  assert (completed : fst (TrainDeepQ.game_loop (1 # 30) s) = Val tt)
    by (vm_compute; reflexivity).
  assert (ran : TrainDeepQ.episode_end_ran (TrainDeepQ.tick_events (1 # 30) s) = true)
    by (vm_compute; reflexivity).
  assert (alive : TrainDeepQ.reported_alive (TrainDeepQ.tick_events (1 # 30) s)
                  = Some true)
    by (vm_compute; reflexivity).
  destruct (claim Toy.env s (1 # 30) unskipped completed) as [ended _].
  specialize (ended ran). rewrite alive in ended. discriminate ended.
Qed.


(** ** The background pass *)

Section PassFacts.
Import TrainDeepQ.
Context {E : Env}.
Local Abbreviation St := (St E (Globals E)).

(** What [_background_replay] does, by the answer of [replay_memory]. *)
Lemma background_replay_eq (batch_size epochs : Z) (s : St) :
  _background_replay batch_size epochs s =
  match replay_memory E batch_size epochs (world s) with
  | (Ok (Some l), w1) =>
      (Val tt,
       mkSt (set_losses (losses (globals s) ++ [l]) (globals s)) w1 (threads s)
            (trace s ++ [EReplayMemory batch_size epochs (Ok (Some l));
                         EPrint (MsgBgFinished l)]))
  | (Ok None, w1) =>
      (Val tt,
       mkSt (globals s) w1 (threads s)
            (trace s ++ [EReplayMemory batch_size epochs (Ok None);
                         EPrint MsgBgNoLoss]))
  | (Raise e, w1) =>
      (Val tt,
       mkSt (globals s) w1 (threads s)
            (trace s ++ [EReplayMemory batch_size epochs (Raise e);
                         EPrint (MsgBgError e)]))
  end.
Proof.
  unfold _background_replay, def, try_except, bind, call, store, print, modify.
  destruct (replay_memory E batch_size epochs (world s)) as [[[l|]|e] w1];
    cbn; unfold emit, set_world, set_globals; cbn;
    repeat rewrite <- app_assoc; reflexivity.
Qed.

(** A pass leaves the tick's globals, but for [losses], and the thread
    objects alone, and remembers nothing. *)
Lemma background_replay_frame (batch_size epochs : Z) (s : St) :
  let s' := snd (_background_replay batch_size epochs s) in
  fst (_background_replay batch_size epochs s) = Val tt
  /\ threads s' = threads s
  /\ training_thread (globals s') = training_thread (globals s)
  /\ last_score (globals s') = last_score (globals s)
  /\ episode_rewards (trace s') = episode_rewards (trace s)
  /\ exists r m, trace s' = trace s ++ [EReplayMemory batch_size epochs r; EPrint m].
Proof.
  rewrite background_replay_eq.
  destruct (replay_memory E batch_size epochs (world s)) as [[[l|]|e] w1];
    cbn; unfold episode_rewards; rewrite fold_left_app; cbn;
    repeat split; eauto.
Qed.

Lemma complete_running (i : nat) (s : St) (batch_size epochs : Z) :
  nth_error (threads s) i = Some (Running batch_size epochs) ->
  complete i s =
  (Val tt,
   set_threads (update i (fun _ => Finished) (threads s))
               (snd (_background_replay batch_size epochs s))).
Proof.
  intros Hi.
  destruct (background_replay_frame batch_size epochs s) as (V & T & _).
  unfold complete, bind, gets, modify. cbn. rewrite Hi.
  destruct (_background_replay batch_size epochs s) as [o s1].
  cbn [fst snd] in *. subst o. cbn. now rewrite T.
Qed.

Lemma ref_alive_running (ts : list thread) (i : nat) :
  ref_alive ts i = true ->
  exists batch_size epochs, nth_error ts i = Some (Running batch_size epochs).
Proof.
  unfold ref_alive. destruct (nth_error ts i) as [[| |]|]; try discriminate.
  eauto.
Qed.

Lemma ref_alive_finished (ts : list thread) (i j : nat) :
  ref_alive (update i (fun _ => Finished) ts) j = true ->
  j <> i /\ ref_alive ts j = true.
Proof.
  unfold ref_alive. revert i j.
  induction ts as [|t ts IH]; intros [|i] [|j]; cbn; try discriminate; intros H.
  - split; [discriminate | exact H].
  - split; [discriminate | exact H].
  - destruct (IH i j H) as [N A]. split; [congruence | exact A].
Qed.

Lemma ref_alive_fresh (ts : list thread) (t : thread) (j : nat) :
  ref_alive (ts ++ [t]) j = true ->
  ref_alive ts j = true \/ j = List.length ts.
Proof.
  unfold ref_alive. revert j.
  induction ts as [|x ts IH]; intros [|j]; cbn; intros H; auto.
  - destruct j; discriminate H.
  - destruct (IH j H) as [A | ->]; auto.
Qed.

(** When live references all coincide, at most one thread is alive. *)
Lemma alive_count_one (ts : list thread) :
  (forall i j, ref_alive ts i = true -> ref_alive ts j = true -> i = j) ->
  (alive_count ts <= 1)%nat.
Proof.
  unfold alive_count.
  induction ts as [|t ts IH]; intros U; cbn; [lia|].
  destruct (is_alive t) eqn:A.
  - assert (D : filter is_alive ts = []).
    { destruct (filter is_alive ts) as [|x l] eqn:F; [reflexivity | exfalso].
      assert (In x (filter is_alive ts)) as Hin by (rewrite F; now left).
      apply filter_In in Hin. destruct Hin as [Hin Ax].
      apply In_nth_error in Hin. destruct Hin as [n Hn].
      specialize (U O (S n)). unfold ref_alive in U. cbn in U.
      rewrite Hn in U. specialize (U A Ax). discriminate U. }
    rewrite D. cbn. lia.
  - apply IH. intros i j Hi Hj.
    specialize (U (S i) (S j) Hi Hj). congruence.
Qed.

Lemma sole_pass_tick (s s' : St) (dt : Q) :
  sole_pass s -> game_loop dt s = (Val tt, s') -> sole_pass s'.
Proof.
  intros I R. destruct (skip_frame (globals s)) eqn:Hs.
  - rewrite (skip_tick s dt Hs) in R. injection R as <-. exact I.
  - destruct (tick_completed s s' dt Hs R)
      as (state & tr & ar & action & alive & score & score' & new_state &
          w1 & w2 & w3 & w4 & w5 & w6 & w7 & w8 &
          _ & _ & _ & _ & _ & _ & _ & _ & B).
    cbv zeta in B.
    destruct (negb alive || Qle_bool 300 (fl E (time_elapsed (globals s) + dt))).
    + destruct B as (final & w9 & w10 & w11 & w12 & w13 & _ & _ & _ & _ & _ & B).
      destruct (training_running s) eqn:Tr; subst s'; intros j; cbn.
      * apply I.
      * intros A. apply ref_alive_fresh in A. destruct A as [A | ->]; [|reflexivity].
        exfalso. unfold training_running in Tr. rewrite (I j A) in Tr. congruence.
    + subst s'. intros j; cbn. apply I.
Qed.

Lemma sole_pass_pass (s s' : St) (i : nat) :
  sole_pass s -> ref_alive (threads s) i = true ->
  complete i s = (Val tt, s') -> sole_pass s'.
Proof.
  intros I A R.
  destruct (ref_alive_running (threads s) i A) as (b & e & Hi).
  rewrite (complete_running i s b e Hi) in R. injection R as <-.
  destruct (background_replay_frame b e s) as (_ & _ & Th & _).
  intros j. cbn. intros Aj. apply ref_alive_finished in Aj.
  cbv zeta in Th. rewrite Th. apply I, Aj.
Qed.

Lemma reachable_sole_pass (w0 : World E) (s : St) :
  reachable w0 s -> sole_pass s.
Proof.
  induction 1 as [|s s' _ IH Hstep].
  - intros j. cbn. destruct j; discriminate.
  - destruct Hstep as [dt s s' R | i s s' A R].
    + exact (sole_pass_tick s s' dt IH R).
    + exact (sole_pass_pass s s' i IH A R).
Qed.

End PassFacts.

(** C5: in every reachable state at most one training pass is alive.
    When an episode ends while the pass the global refers to is still
    alive, the tick starts no thread: the thread objects and the global
    are as before, the replay memory was dumped all the same, and the
    skip is reported.  When no pass is alive, the tick starts exactly
    one. *)
Theorem one_training_pass_at_a_time
        (E : Env) (w0 : World E) (s : St E (TrainDeepQ.Globals E)) :
  TrainDeepQ.reachable w0 s ->
  (TrainDeepQ.alive_count (threads s) <= 1)%nat
  /\ forall dt s',
       TrainDeepQ.skip_frame (globals s) = false ->
       TrainDeepQ.game_loop dt s = (Val tt, s') ->
       TrainDeepQ.episode_end_ran (TrainDeepQ.tick_events dt s) = true ->
       In (EDumpMemoryToCache (Ok tt)) (TrainDeepQ.tick_events dt s)
       /\ (TrainDeepQ.training_running s = true ->
           threads s' = threads s
           /\ TrainDeepQ.training_thread (globals s')
              = TrainDeepQ.training_thread (globals s)
           /\ existsb TrainDeepQ.is_thread_start (TrainDeepQ.tick_events dt s) = false
           /\ In (EPrint MsgTrainingSkipped) (TrainDeepQ.tick_events dt s))
       /\ (TrainDeepQ.training_running s = false ->
           threads s' = threads s ++ [Running (Z.shiftl 1 10) 10]
           /\ TrainDeepQ.training_thread (globals s')
              = Some (List.length (threads s))
           /\ In (EThreadStart (List.length (threads s)))
                 (TrainDeepQ.tick_events dt s)).
Proof.
  intros Hr. split.
  - apply alive_count_one. intros i j Hi Hj.
    pose proof (reachable_sole_pass w0 s Hr) as I.
    pose proof (I i Hi) as Ti. pose proof (I j Hj) as Tj. congruence.
  - intros dt s' Hs R Hend.
    destruct (tick_completed s s' dt Hs R)
      as (state & tr & ar & action & alive & score & score' & new_state &
          w1 & w2 & w3 & w4 & w5 & w6 & w7 & w8 &
          _ & _ & _ & _ & _ & _ & _ & _ & B).
    cbv zeta in B.
    destruct (negb alive || Qle_bool 300 (fl E (TrainDeepQ.time_elapsed (globals s) + dt))).
    + destruct B as (final & w9 & w10 & w11 & w12 & w13 & _ & _ & _ & _ & _ & B).
      destruct (TrainDeepQ.training_running s); subst s';
        rewrite (tick_events_eq s _ dt _ R eq_refl); cbn;
        (split; [tauto|]); split; intros F; try discriminate F;
        repeat split; tauto.
    + subst s'. rewrite (tick_events_eq s _ dt _ R eq_refl) in Hend. discriminate Hend.
Qed.

Lemma reachable_tick (E : Env) (w0 : World E) (s : St E (TrainDeepQ.Globals E)) (dt : Q) :
  TrainDeepQ.reachable w0 s ->
  fst (TrainDeepQ.game_loop dt s) = Val tt ->
  TrainDeepQ.reachable w0 (snd (TrainDeepQ.game_loop dt s)).
Proof.
  intros Hr Hc. apply TrainDeepQ.reach_step with (s := s); [exact Hr|].
  apply TrainDeepQ.step_tick with (dt := dt).
  destruct (TrainDeepQ.game_loop dt s) as [o s']. cbn in *. now subst o.
Qed.

Lemma one_training_pass_at_a_time_witness :
  let s := TrainDeepQ.ticks 6 (1 # 30) (TrainDeepQ.initial (E:=Toy.env) (Toy.w0 3)) in
  TrainDeepQ.reachable (E:=Toy.env) (Toy.w0 3) s
  /\ TrainDeepQ.training_running s = true
  /\ (TrainDeepQ.alive_count (threads s) <= 1)%nat
  /\ threads (snd (TrainDeepQ.game_loop (1 # 30) s)) = threads s
  /\ existsb TrainDeepQ.is_thread_start (TrainDeepQ.tick_events (1 # 30) s) = false.
Proof.
  intros s.
  assert (Hr : TrainDeepQ.reachable (E:=Toy.env) (Toy.w0 3) s).
  { unfold s. cbn [TrainDeepQ.ticks].
    repeat (apply reachable_tick; [| vm_compute; reflexivity]).
    apply TrainDeepQ.reach_initial. }
  destruct (@one_training_pass_at_a_time Toy.env (Toy.w0 3) s Hr) as [Hone Hskip].
  assert (Hs : TrainDeepQ.skip_frame (globals s) = false)
    by (vm_compute; reflexivity).
  assert (Ht : TrainDeepQ.game_loop (1 # 30) s
               = (Val tt, snd (TrainDeepQ.game_loop (1 # 30) s)))
    by (vm_compute; reflexivity).
  assert (He : TrainDeepQ.episode_end_ran (TrainDeepQ.tick_events (1 # 30) s) = true)
    by (vm_compute; reflexivity).
  assert (Ha : TrainDeepQ.training_running s = true)
    by (vm_compute; reflexivity).
  destruct (Hskip (1 # 30) (snd (TrainDeepQ.game_loop (1 # 30) s)) Hs Ht He)
    as (_ & Hrun & _).
  destruct (Hrun Ha) as (Hth & _ & Hno & _).
  repeat split; assumption.
Defined.

(** ** Ticks that may raise *)

Lemma dumped_before_start_sound (E : Env) (evs pre post : list (event E))
      (dumped : bool) (i : nat) :
  TrainDeepQ.dumped_before_start dumped evs = true ->
  evs = pre ++ EThreadStart i :: post ->
  dumped = true \/ In (EDumpMemoryToCache (Ok tt)) pre.
Proof.
  revert evs dumped.
  induction pre as [|x pre IH]; intros evs dumped H ->; cbn in H.
  - apply andb_true_iff in H. now left.
  - destruct x as [ | | | | | | [[]|] | | | | | | | | | | ];
      try (destruct (IH _ _ H eq_refl) as [D | D]; [now left | right; now right]).
    + destruct (IH _ _ H eq_refl) as [_ | D]; right; [now left | now right].
    + apply andb_true_iff in H. destruct H as [-> _]. now left.
Qed.

Section TickAlways.
Import TrainDeepQ.
Context {E : Env}.
Local Abbreviation St := (St E (Globals E)).

Ltac close_leaf R :=
  injection R as <- <-; cbn [snd trace];
  repeat rewrite <- app_assoc; cbn [app];
  rewrite skipn_own_length; reflexivity.

(** Whatever the outcome of a tick, its log starts no thread before a
    successful dump. *)
Lemma tick_dumps_first (s : St) (dt : Q) :
  dumped_before_start false (tick_events dt s) = true.
Proof.
  unfold tick_events, events_of.
  destruct (game_loop dt s) as [o s'] eqn:R.
  destruct s as [[base elapsed n skip ls sc th] w ts tr].
  unfold_py R. simp_py R. cbn [trace].
  destruct skip; simp_py R.
  - injection R as <- <-. cbn [snd trace].
    rewrite <- (app_nil_r tr) at 2. now rewrite skipn_own_length.
  - do 8 (next_call R; [| close_leaf R]).
    destruct (negb a1 || Qle_bool 300 (fl E (elapsed + dt))); simp_py R;
      [| close_leaf R].
    next_call R; [| close_leaf R].
    destruct th as [i|]; simp_py R;
      [destruct (ref_alive ts i); simp_py R|];
      do 4 (next_call R; [| close_leaf R]); close_leaf R.
Qed.
End TickAlways.

(** C6: in every tick, whatever its outcome, a training thread is
    started only after [dump_memory_to_cache] was called in that tick
    and answered: the dump comes strictly first in the log. *)
Theorem memory_dumped_before_training
        (E : Env) (s : St E (TrainDeepQ.Globals E)) (dt : Q)
        (pre post : list (event E)) (i : nat) :
  TrainDeepQ.tick_events dt s = pre ++ EThreadStart i :: post ->
  In (EDumpMemoryToCache (Ok tt)) pre.
Proof.
  intros H.
  destruct (dumped_before_start_sound E _ pre post false i
              (tick_dumps_first s dt) H) as [F | D];
    [discriminate F | exact D].
Qed.

(** The tick that ends the first episode in the small world: eight
    calls of the body, the dump, the report, then the thread start. *)
Lemma memory_dumped_before_training_witness :
  let s := TrainDeepQ.ticks 2 (1 # 30) (TrainDeepQ.initial (E:=Toy.env) (Toy.w0 3)) in
  let evs := TrainDeepQ.tick_events (1 # 30) s in
  evs = firstn 10 evs ++ EThreadStart 0 :: skipn 11 evs
  /\ In (EDumpMemoryToCache (Ok tt)) (firstn 10 evs).
Proof.
  intros s evs.
  assert (H : evs = firstn 10 evs ++ EThreadStart 0 :: skipn 11 evs)
    by (vm_compute; reflexivity).
  split; [exact H|].
  exact (@memory_dumped_before_training Toy.env s (1 # 30) _ _ _ H).
Defined.

(** ** Rewards *)

Section RewardFacts.
Import TrainDeepQ.
Context {E : Env}.
Local Abbreviation St := (St E (Globals E)).

Lemma episode_rewards_app (tr evs : list (event E)) :
  episode_rewards (tr ++ evs) = fold_left add_reward evs (episode_rewards tr).
Proof.
  unfold episode_rewards. apply fold_left_app.
Qed.








End RewardFacts.







(** ** Faults *)

Section FaultFacts.
Import TrainDeepQ.
Context {E : Env}.
Local Abbreviation St := (St E (Globals E)).

Ltac blame R Hin Hf :=
  injection R as <- <-; cbn [snd trace] in Hin;
  repeat rewrite <- app_assoc in Hin; cbn [app] in Hin;
  rewrite skipn_own_length in Hin;
  cbn [In] in Hin;
  repeat (destruct Hin as [<- | Hin]; [cbn in Hf; try discriminate Hf|]);
  try contradiction;
  try (injection Hf as <-; reflexivity).

(** The training tick has no handler: whichever call raises, the tick
    ends with that exception. *)
Lemma tick_fault_propagates (s : St) (dt : Q) (ev : event E) (e : Exn E) :
  In ev (tick_events dt s) -> fault_of ev = Some e ->
  fst (game_loop dt s) = Exc e.
Proof.
  unfold tick_events, events_of.
  destruct (game_loop dt s) as [o s'] eqn:R.
  destruct s as [[base elapsed n skip ls sc th] w ts tr].
  unfold_py R. simp_py R. cbn [trace fst].
  intros Hin Hf.
  destruct skip; simp_py R.
  - injection R as <- <-. cbn [snd trace] in Hin.
    rewrite <- (app_nil_r tr) in Hin at 2. rewrite skipn_own_length in Hin.
    contradiction.
  - do 8 (next_call R; [| blame R Hin Hf]).
    destruct (negb a1 || Qle_bool 300 (fl E (elapsed + dt))); simp_py R;
      [| blame R Hin Hf].
    next_call R; [| blame R Hin Hf].
    destruct th as [i|]; simp_py R;
      [destruct (ref_alive ts i); simp_py R|];
      do 4 (next_call R; [| blame R Hin Hf]); blame R Hin Hf.
Qed.

End FaultFacts.

(** C3, training loop: [game_loop] of [train_deep_q.py] catches nothing.
    Whichever call of a tick raises, the tick ends with that exception
    and hands it to the scheduler. *)
Theorem training_tick_propagates_faults
        (E : Env) (s : St E (TrainDeepQ.Globals E)) (dt : Q)
        (ev : event E) (e : Exn E) :
  In ev (TrainDeepQ.tick_events dt s) ->
  fault_of ev = Some e ->
  fst (TrainDeepQ.game_loop dt s) = Exc e.
Proof.
  apply tick_fault_propagates.
Qed.

(** A sensor fault on the first tick of the small world. *)
Lemma training_tick_propagates_faults_witness :
  let s := TrainDeepQ.initial (E:=Toy.env)
             (Toy.with_faults false true true None (Toy.w0 3)) in
  let ev : event Toy.env :=
    EGetInputData (E:=Toy.env) (Raise Toy.SensorError) in
  In ev (TrainDeepQ.tick_events (1 # 30) s)
  /\ fault_of ev = Some Toy.SensorError
  /\ fst (TrainDeepQ.game_loop (1 # 30) s) = Exc Toy.SensorError.
Proof.
  intros s ev.
  assert (Hin : In ev (TrainDeepQ.tick_events (1 # 30) s)) by (left; reflexivity).
  assert (Hf : fault_of ev = Some Toy.SensorError) by reflexivity.
  split; [exact Hin | split; [exact Hf|]].
  exact (@training_tick_propagates_faults Toy.env s (1 # 30) ev Toy.SensorError Hin Hf).
Defined.

Section MainFacts.
Import Main.
Context {E : Env}.
Local Abbreviation St := (St E (Globals E)).

(** C3, inference loop: [game_loop] of [main.py] completes whatever its
    calls do; no exception leaves the tick. *)
Lemma main_tick_completes (s : St) (dt : Q) :
  fst (game_loop dt s) = Val tt.
Proof.
  destruct (game_loop dt s) as [o s'] eqn:R.
  destruct s as [[d] w ts tr].
  unfold_py R. simp_py R. cbn [fst].
  repeat first
    [ next_call R
    | match type of R with
      | context [if negb ?b then _ else _] => destruct b; simp_py R
      end ];
    injection R as <- _; reflexivity.
Qed.

End MainFacts.

(** C4: the background pass never raises, whatever [replay_memory]
    does, and so a thread that runs it always comes to its end.  A loss
    is appended to [losses] and reported; an absent loss is reported as
    such and nothing is recorded; an exception is caught and reported
    and nothing is recorded. *)
Theorem background_pass_contains_failures
        (E : Env) (batch_size epochs : Z) (s : St E (TrainDeepQ.Globals E)) :
  let pass := TrainDeepQ._background_replay batch_size epochs in
  let recorded := TrainDeepQ.losses (globals (snd (pass s))) in
  fst (pass s) = Val tt
  /\ (forall i, fst (TrainDeepQ.complete i s) = Val tt)
  /\ match fst (replay_memory E batch_size epochs (world s)) with
     | Ok (Some l) =>
         recorded = TrainDeepQ.losses (globals s) ++ [l]
         /\ events_of pass s =
            [EReplayMemory batch_size epochs (Ok (Some l)); EPrint (MsgBgFinished l)]
     | Ok None =>
         recorded = TrainDeepQ.losses (globals s)
         /\ events_of pass s =
            [EReplayMemory batch_size epochs (Ok None); EPrint MsgBgNoLoss]
     | Raise e =>
         recorded = TrainDeepQ.losses (globals s)
         /\ events_of pass s =
            [EReplayMemory batch_size epochs (Raise e); EPrint (MsgBgError e)]
     end.
Proof.
  cbv zeta. split; [|split].
  - apply (background_replay_frame batch_size epochs s).
  - intros i. unfold TrainDeepQ.complete, bind, gets, modify. cbn.
    destruct (nth_error (threads s) i) as [[b e|b e|]|]; try reflexivity.
    destruct (background_replay_frame b e s) as (V & _).
    destruct (TrainDeepQ._background_replay b e s) as [o s1].
    cbn [fst] in V. subst o. reflexivity.
  - unfold events_of. rewrite background_replay_eq.
    destruct (replay_memory E batch_size epochs (world s)) as [[[l|]|e] w1];
      cbn [fst snd globals trace TrainDeepQ.losses TrainDeepQ.set_losses];
      rewrite skipn_own_length; split; reflexivity.
Qed.

(** ** Shutdown *)


(** Read the calls of the block off the final log. *)
Ltac read_log :=
  cbn [trace]; repeat rewrite <- app_assoc; cbn [app];
  rewrite skipn_own_length.


(** ** Startup *)

(** C8: loading the model at startup always completes.  With no model
    file the loader is not called, the driver stays as constructed and
    a warning is logged; when the loader raises, the exception is
    caught and logged with a warning, and startup goes on with the
    driver as the loader left it; otherwise the weights are loaded. *)
Theorem model_loading_never_fatal (E : Env) (s : St E (Main.Globals E)) :
  let s' := snd (Main.load_model s) in
  fst (Main.load_model s) = Val tt
  /\ globals s' = globals s
  /\ if path_exists E Main.MODEL_PATH (world s) then
       match load_model_weights E Main.MODEL_PATH (world s) with
       | (Ok _, w1) =>
           world s' = w1
           /\ events_of Main.load_model s =
              [ELoadModelWeights Main.MODEL_PATH (Ok tt);
               ELog INFO (MsgWeightsLoaded Main.MODEL_PATH)]
       | (Raise e, w1) =>
           world s' = w1
           /\ events_of Main.load_model s =
              [ELoadModelWeights Main.MODEL_PATH (Raise e);
               ELog ERROR (MsgLoadFailed Main.MODEL_PATH e);
               ELog WARNING MsgContinuing]
       end
     else
       world s' = world s
       /\ events_of Main.load_model s =
          [ELog WARNING (MsgModelNotFound Main.MODEL_PATH)].
Proof.
  unfold events_of. cbv zeta.
  destruct (Main.load_model s) as [o s'] eqn:R.
  destruct s as [[d] w ts tr].
  unfold_py R. simp_py R. cbn [fst snd trace globals world].
  destruct (path_exists E Main.MODEL_PATH w); simp_py R.
  - destruct (load_model_weights E Main.MODEL_PATH w) as [[[]|e] w1];
      simp_py R; injection R as <- <-; read_log; repeat split; reflexivity.
  - injection R as <- <-; read_log; repeat split; reflexivity.
Qed.

Section MainRecovery.
Import Main.
Context {E : Env}.
Local Abbreviation St := (St E (Globals E)).

Ltac pick H :=
  cbn [In] in H;
  repeat (destruct H as [H | H]; [try discriminate H|]);
  try contradiction.

Ltac found := cbn [In]; solve [repeat (first [left; reflexivity | right])].

(** How the inference tick degrades: a failing [calculate_command]
    gives way to the zero command; after a failing [move] the car is
    put back on the start and the tick ends without evaluating; a
    failing [evaluate] counts as the end of the episode, and the car
    and the score are reset. *)
Lemma main_tick_degrades (s : St) (dt : Q) :
  let evs := events_of (game_loop dt) s in
  (forall e, In (ECalculateCommand false (Raise e)) evs ->
             exists r, In (EMove 0 0 dt r) evs)
  /\ (forall turn_rate acceleration_rate e,
        In (EMove turn_rate acceleration_rate dt (Raise e)) evs ->
        (exists p r, In (EInitPosition p (start_direction (globals s)) r) evs)
        /\ forall r, ~ In (EEvaluate dt r) evs)
  /\ (forall e, In (EEvaluate dt (Raise e)) evs ->
        (exists p d r, In (EInitPosition p d r) evs)
        /\ exists r, In (EResetScore r) evs).
Proof.
  unfold events_of. cbv zeta.
  destruct (game_loop dt s) as [o s'] eqn:R.
  destruct s as [[d] w ts tr].
  unfold_py R. simp_py R. cbn [snd globals world start_direction].
  repeat first
    [ next_call R
    | match type of R with
      | context [if negb ?b then _ else _] => destruct b; simp_py R
      end ];
    injection R as _ <-; read_log;
    (split; [| split]); intros;
    match goal with H : In _ _ |- _ => pick H end;
    repeat split;
    lazymatch goal with
    | |- forall r, ~ _ => let Hn := fresh in intros ? Hn; pick Hn
    | |- _ => first [ eexists; found | do 2 eexists; found | do 3 eexists; found ]
    end.
Qed.
End MainRecovery.

(** ** Runs of the small world *)

(** The first tick of the training loop on a track of three cells. *)
Example first_training_tick :
  TrainDeepQ.tick_events (1 # 30) (TrainDeepQ.initial (E:=Toy.env) (Toy.w0 3)) =
  [EGetInputData (E:=Toy.env) (Ok 0%Z);
   ECalculateCommand (E:=Toy.env) true (Ok (0, 1, 1%nat));
   EMove (E:=Toy.env) 0 1 (1 # 30) (Ok tt);
   EEvaluate (E:=Toy.env) (1 # 30) (Ok true);
   EGetScore (E:=Toy.env) (Ok 1); EGetScore (E:=Toy.env) (Ok 1);
   EGetInputData (E:=Toy.env) (Ok 1%Z);
   ERemember (E:=Toy.env) 0%Z 1%nat (1 - 0) 1%Z false (Ok tt)].
Proof. vm_compute. reflexivity. Qed.

(** The third tick takes the car off the track: the episode ends, the
    memory is dumped, training starts, the car and the score are reset. *)
Example third_training_tick :
  let s := TrainDeepQ.ticks 2 (1 # 30) (TrainDeepQ.initial (E:=Toy.env) (Toy.w0 3)) in
  skipn 8 (TrainDeepQ.tick_events (1 # 30) s) =
  [EDumpMemoryToCache (E:=Toy.env) (Ok tt); EPrint (MsgGameEnded 0); EThreadStart 0;
   EGetScore (E:=Toy.env) (Ok 3); EDecayEpsilon (E:=Toy.env) (Ok tt);
   EPrint (MsgGameStarting 1 (TrainDeepQ.ticks 3 (1 # 30)
             (TrainDeepQ.initial (E:=Toy.env) (Toy.w0 3))).(world).(Toy.eps));
   EInitPosition (E:=Toy.env) 0%Z 1%Z (Ok tt); EResetScore (E:=Toy.env) (Ok tt)]
  /\ TrainDeepQ.scores (globals (snd (TrainDeepQ.game_loop (1 # 30) s))) = [3 + 100]
  /\ threads (snd (TrainDeepQ.game_loop (1 # 30) s)) = [Running 1024 10].
Proof. vm_compute. repeat split. Qed.

(** The inference tick with a failing sensor: the failure is logged
    and the tick goes on. *)
Example inference_tick_with_blind_sensor :
  let s := Main.initial (E:=Toy.env) 1%Z
             (Toy.with_faults false true true None (Toy.w0 3)) in
  Main.game_loop (1 # 60) s =
  (Val tt,
   mkSt (globals s)
        (snd (Main.game_loop (1 # 60) s)).(world) []
        [EGetInputData (E:=Toy.env) (Raise Toy.SensorError);
         ELog DEBUG (MsgInputDataFailed (E:=Toy.env) Toy.SensorError);
         ECalculateCommand (E:=Toy.env) false (Ok (0, 1, 1%nat));
         EMove (E:=Toy.env) 0 1 (1 # 60) (Ok tt);
         EEvaluate (E:=Toy.env) (1 # 60) (Ok true)]).
Proof. vm_compute. reflexivity. Qed.

(** Closing the window with a full disk while a pass is in flight: the
    pass is awaited and finds too little data, the failing save is
    reported, and the handler answers [True]. *)
Example close_with_full_disk :
  let s := TrainDeepQ.ticks 3 (1 # 30) (TrainDeepQ.initial (E:=Toy.env) (Toy.w0 3)) in
  let s := set_world (E:=Toy.env) (Toy.with_faults true false true None (world s)) s in
  fst (TrainDeepQ.on_close s) = Val true
  /\ events_of TrainDeepQ.on_close s =
     [EPrint MsgWaiting; EThreadJoin 0 10;
      EReplayMemory (E:=Toy.env) 1024 10 (Ok None); EPrint MsgBgNoLoss;
      ESaveModelWeights (E:=Toy.env) "model.h5" (Raise Toy.IOError);
      EPrint (MsgSaveError (E:=Toy.env) Toy.IOError)].
Proof. vm_compute. split; reflexivity. Qed.

(** Startup with a corrupt model file. *)
Example startup_with_corrupt_model :
  let s := Main.initial (E:=Toy.env) 1%Z
             (Toy.with_faults true true true (Some false) (Toy.w0 3)) in
  fst (Main.load_model s) = Val tt
  /\ events_of Main.load_model s =
     [ELoadModelWeights (E:=Toy.env) "model.h5" (Raise Toy.IOError);
      ELog ERROR (MsgLoadFailed (E:=Toy.env) "model.h5" Toy.IOError);
      ELog WARNING MsgContinuing].
Proof. vm_compute. split; reflexivity. Qed.

(** * More of the training loop *)

(** ** Steps of a run *)

Section RunFacts.
Import TrainDeepQ Episode.
Context {E : Env}.
Local Abbreviation St := (St E (Globals E)).

(** A pass that comes to its end: one call of [replay_memory], one
    line printed, the loss appended if there is one, the thread dead. *)
Lemma pass_completed (s s' : St) (i : nat) :
  ref_alive (threads s) i = true ->
  complete i s = (Val tt, s') ->
  exists batch_size epochs r w1,
    nth_error (threads s) i = Some (Running batch_size epochs)
    /\ replay_memory E batch_size epochs (world s) = (r, w1)
    /\ s' = mkSt (set_losses (losses (globals s) ++ loss_of r) (globals s)) w1
              (update i (fun _ => Finished) (threads s))
              (trace s ++ [EReplayMemory batch_size epochs r;
                           EPrint (pass_report r)]).
Proof.
  intros A R.
  destruct (ref_alive_running (threads s) i A) as (b & e & Hi).
  rewrite (complete_running i s b e Hi) in R. injection R as <-.
  rewrite background_replay_eq.
  destruct s as [[base elapsed n skip ls sc th] w ts tr]. cbn in *.
  destruct (replay_memory E b e w) as [r w1] eqn:C.
  exists b, e, r, w1. split; [exact Hi | split; [exact C|]].
  destruct r as [[l|]|x]; cbn; try rewrite app_nil_r; reflexivity.
Qed.

(** Induction on runs, with the tick split into its three kinds. *)
Lemma run_induction (w0 : World E) (P : St -> Prop) :
  P (initial w0) ->
  (forall s s' dt, P s -> game_loop dt s = (Val tt, s') -> P s') ->
  (forall s s' i, P s -> ref_alive (threads s) i = true ->
                  complete i s = (Val tt, s') -> P s') ->
  forall s, reachable w0 s -> P s.
Proof.
  intros H0 Ht Hp s Hr.
  induction Hr as [|s s' _ IH Hstep]; [exact H0|].
  destruct Hstep as [dt s s' R | i s s' A R].
  - exact (Ht s s' dt IH R).
  - exact (Hp s s' i IH A R).
Qed.

(** A pass in flight can always come to its end. *)
Lemma reachable_pass (w0 : World E) (s : St) (i : nat) :
  reachable w0 s -> ref_alive (threads s) i = true ->
  reachable w0 (snd (complete i s)).
Proof.
  intros Hr A. apply reach_step with (s := s); [exact Hr|].
  apply step_pass with (i := i); [exact A|].
  destruct (ref_alive_running (threads s) i A) as (b & e & Hi).
  rewrite (complete_running i s b e Hi). reflexivity.
Qed.

End RunFacts.

(** The kinds of a completed tick: skipped; ending the episode with a
    pass still alive, or with none; going on. *)
Ltac tick_kinds s s' dt R :=
  let Hs := fresh "Hs" in
  let B := fresh "B" in
  let Hend := fresh "Hend" in
  let Tr := fresh "Tr" in
  destruct (TrainDeepQ.skip_frame (globals s)) eqn:Hs;
  [ rewrite (skip_tick s dt Hs) in R; injection R as <-
  | destruct (tick_completed s s' dt Hs R)
      as (state & turn & acc & action & alive & score & score' & new_state &
          w1 & w2 & w3 & w4 & w5 & w6 & w7 & w8 &
          G1 & G2 & G3 & G4 & G5 & G6 & G7 & G8 & B);
    cbv zeta in B;
    destruct (negb alive
              || Qle_bool 300 (fl _ (TrainDeepQ.time_elapsed (globals s) + dt)))
      eqn:Hend;
    [ destruct B as (final & w9 & w10 & w11 & w12 & w13 &
                     G9 & G10 & G11 & G12 & G13 & B);
      destruct (TrainDeepQ.training_running s) eqn:Tr; subst s'
    | subst s' ] ].

(** Induction on the run that reaches [s]. *)
Ltac by_run s :=
  let Hr := fresh "Hr" in
  intros Hr; pattern s; revert s Hr; apply run_induction; cbv beta.

Ltac pass_kind s s' i A R :=
  destruct (pass_completed s s' i A R) as (b & e & r & w1 & Hi & C & ->).

(** ** Invariants of the training loop *)

Section Invariants.
Import TrainDeepQ Episode.
Context {E : Env}.
Local Abbreviation St := (St E (Globals E)).

Lemma clock_below_limit (w0 : World E) (s : St) :
  reachable w0 s -> time_elapsed (globals s) < 300.
Proof.
  by_run s.
  - reflexivity.
  - intros s0 s' dt I R. tick_kinds s0 s' dt R; cbn; try exact I; try reflexivity.
    apply orb_false_iff in Hend. destruct Hend as [_ Hend].
    apply Qnot_le_lt. intros L. apply Qle_bool_iff in L. congruence.
  - intros s0 s' i I A R. pass_kind s0 s' i A R. exact I.
Qed.

Lemma episode_clock_app (tr evs : list (event E)) :
  episode_clock (tr ++ evs) = fold_left add_dt evs (episode_clock tr).
Proof.
  unfold episode_clock. apply fold_left_app.
Qed.

Lemma clock_is_sum_of_moves (w0 : World E) (s : St) :
  reachable w0 s -> episode_clock (trace s) = time_elapsed (globals s).
Proof.
  by_run s.
  - reflexivity.
  - intros s0 s' dt I R. tick_kinds s0 s' dt R; cbn [trace globals time_elapsed];
      try exact I; rewrite episode_clock_app; cbn -[Qplus]; try reflexivity.
    rewrite I. reflexivity.
  - intros s0 s' i I A R. pass_kind s0 s' i A R. cbn [trace globals time_elapsed].
    rewrite episode_clock_app. destruct r as [[l|]|x]; exact I.
Qed.

Lemma count_app {A : Type} (p : A -> bool) (l l' : list A) :
  count p (l ++ l') = (count p l + count p l')%nat.
Proof.
  unfold count. now rewrite filter_app, length_app.
Qed.

Lemma reachable_ledger (w0 : World E) (s : St) :
  reachable w0 s -> ledger_balanced s.
Proof.
  unfold ledger_balanced. by_run s.
  - repeat split.
  - intros s0 s' dt (I1 & I2 & I3 & I4 & I5) R.
    tick_kinds s0 s' dt R;
      cbn [trace globals scores game_count set_last_score set_time_elapsed
           set_skip_frame set_globals];
      repeat rewrite count_app; repeat rewrite length_app; cbn;
      repeat split; lia.
  - intros s0 s' i (I1 & I2 & I3 & I4 & I5) A R. pass_kind s0 s' i A R.
    cbn [trace globals scores game_count set_losses].
    repeat rewrite count_app; destruct r as [[l|]|x]; cbn; repeat split; lia.
Qed.

Lemma newest_fresh (ts : list thread) (t : thread) :
  newest (ts ++ [t]) = Some (List.length ts).
Proof.
  destruct ts as [|x ts]; cbn; [reflexivity|].
  now rewrite length_app, Nat.add_comm.
Qed.

Lemma newest_update (ts : list thread) (i : nat) (f : thread -> thread) :
  newest (update i f ts) = newest ts.
Proof.
  assert (L : forall l j, List.length (update j f l) = List.length l).
  { induction l as [|x l IH]; intros [|j]; cbn; auto. }
  destruct ts as [|x ts]; destruct i; cbn; try reflexivity. now rewrite L.
Qed.

Lemma length_update (ts : list thread) (i : nat) (f : thread -> thread) :
  List.length (update i f ts) = List.length ts.
Proof.
  revert i. induction ts as [|x l IH]; intros [|j]; cbn; auto.
Qed.

Lemma launched_update (ts : list thread) (i : nat) :
  forallb launched ts = true ->
  forallb launched (update i (fun _ => Finished) ts) = true.
Proof.
  revert i. induction ts as [|x l IH]; intros [|j]; cbn; auto;
    intros H; apply andb_true_iff in H; destruct H as [Hx Hl]; auto.
  rewrite Hx. cbn. now apply IH.
Qed.

Lemma launched_nth (ts : list thread) (i : nat) (b e : Z) :
  forallb launched ts = true ->
  nth_error ts i = Some (Running b e) ->
  ((b =? 1024)%Z && (e =? 10)%Z) = true.
Proof.
  intros F Hi. rewrite forallb_forall in F.
  exact (F _ (nth_error_In ts i Hi)).
Qed.

Lemma reachable_standard (w0 : World E) (s : St) :
  reachable w0 s -> passes_standard s.
Proof.
  unfold passes_standard. by_run s.
  - repeat split. cbn. lia.
  - intros s0 s' dt (I1 & I2 & I3 & I4) R.
    tick_kinds s0 s' dt R;
      cbn [trace globals threads scores training_thread set_last_score
           set_time_elapsed set_skip_frame set_globals];
      repeat rewrite forallb_app; repeat rewrite length_app;
      try rewrite newest_fresh; rewrite ?I1, ?I4; cbn;
      repeat split; try assumption; try lia.
  - intros s0 s' i (I1 & I2 & I3 & I4) A R. pass_kind s0 s' i A R.
    cbn [trace globals threads scores training_thread set_losses].
    rewrite forallb_app, length_update, newest_update, I4. cbn.
    rewrite (launched_nth _ _ _ _ I1 Hi). cbn.
    repeat split; try assumption. now apply launched_update.
Qed.

Lemma finished_update (ts : list thread) (i : nat) (b e : Z) :
  nth_error ts i = Some (Running b e) ->
  count finished (update i (fun _ => Finished) ts) = S (count finished ts).
Proof.
  unfold count. revert i.
  induction ts as [|x l IH]; intros [|j]; cbn; try discriminate.
  - intros [= ->]. reflexivity.
  - intros H. destruct (finished x); cbn; now rewrite (IH j H).
Qed.

Lemma reachable_losses (w0 : World E) (s : St) :
  reachable w0 s -> losses_accounted s.
Proof.
  unfold losses_accounted. by_run s.
  - split; reflexivity.
  - intros s0 s' dt (I1 & I2) R.
    tick_kinds s0 s' dt R;
      cbn [trace globals threads losses set_last_score
           set_time_elapsed set_skip_frame set_globals];
      repeat rewrite count_app; cbn; split; lia.
  - intros s0 s' i (I1 & I2) A R. pass_kind s0 s' i A R.
    cbn [trace globals threads losses set_losses].
    repeat rewrite count_app. rewrite length_app, (finished_update _ _ _ _ Hi).
    destruct r as [[l|]|x]; cbn; split; lia.
Qed.

Lemma reachable_skip (w0 : World E) (s : St) :
  reachable w0 s -> skip_opens_episode s.
Proof.
  unfold skip_opens_episode. by_run s.
  - cbn. split; [lia | discriminate].
  - intros s0 s' dt (I1 & I2) R.
    tick_kinds s0 s' dt R;
      cbn [trace globals skip_frame last_score time_elapsed game_count
           set_last_score set_time_elapsed set_skip_frame set_globals];
      (split; [lia|]); try discriminate; try congruence;
      intros _; rewrite episode_rewards_app; cbn; repeat split; lia.
  - intros s0 s' i (I1 & I2) A R. pass_kind s0 s' i A R.
    cbn [trace globals skip_frame last_score time_elapsed game_count set_losses].
    rewrite episode_rewards_app.
    split; [exact I1|]. destruct r as [[l|]|x]; exact I2.
Qed.

End Invariants.

(** ** Paths of a block *)

(** Read the calls of a block off the final log. *)
Ltac read_calls :=
  cbn [snd trace]; repeat rewrite <- app_assoc; cbn [app];
  first [rewrite skipn_own_length | rewrite skipn_all].

(** Follow every path of the block in [R]: at a call, go on if it
    answers and [finish] if it raises; case on every test; [finish] at
    the end of each path. *)
Ltac all_paths R finish :=
  repeat first
    [ next_call R; [| finish R]
    | match type of R with
      | context [if ?c then _ else _] => destruct c eqn:?; simp_py R
      end
    | match type of R with
      | context [match ?x with Some _ => _ | None => _ end] =>
          destruct x eqn:?; simp_py R
      end ];
  finish R.

Section TickEffects.
Import TrainDeepQ Episode.
Context {E : Env}.
Local Abbreviation St := (St E (Globals E)).

(** X6: whatever its outcome, completed or raising, a tick of the
    training loop drops nothing: the losses are as they were, and the
    thread objects and the scores are kept, with at most one added to
    each. *)
Theorem tick_drops_nothing (s : St) (dt : Q) :
  let s' := snd (game_loop dt s) in
  losses (globals s') = losses (globals s)
  /\ (exists new, threads s' = threads s ++ new /\ (List.length new <= 1)%nat)
  /\ (exists new, scores (globals s') = scores (globals s) ++ new
                  /\ (List.length new <= 1)%nat).
Proof.
  cbv zeta.
  destruct (game_loop dt s) as [o s'] eqn:R.
  destruct s as [[base elapsed n skip ls sc th] w ts tr].
  unfold_py R. simp_py R. cbn [snd globals threads losses scores].
  all_paths R ltac:(fun R =>
    injection R as _ <-; cbn [globals threads losses scores];
    try rewrite update_fresh;
    split; [reflexivity|];
    split;
    first [ exists []; rewrite app_nil_r; split; [reflexivity | cbn; lia]
          | eexists; split; [reflexivity | cbn; lia] ]).
Qed.

End TickEffects.

(** ** The run of the small world is a run *)

Lemma first_episode_over_reachable :
  TrainDeepQ.reachable (E:=Toy.env) ToyRun.seasoned ToyRun.first_episode_over.
Proof.
  unfold ToyRun.first_episode_over. cbn [TrainDeepQ.ticks].
  repeat (apply reachable_tick; [| vm_compute; reflexivity]).
  apply TrainDeepQ.reach_initial.
Qed.

Lemma first_pass_over_reachable :
  TrainDeepQ.reachable (E:=Toy.env) ToyRun.seasoned ToyRun.first_pass_over.
Proof.
  apply reachable_pass; [exact first_episode_over_reachable|].
  vm_compute. reflexivity.
Qed.

Lemma second_episode_reachable :
  TrainDeepQ.reachable (E:=Toy.env) ToyRun.seasoned ToyRun.second_episode.
Proof.
  unfold ToyRun.second_episode. cbn [TrainDeepQ.ticks].
  repeat (apply reachable_tick; [| vm_compute; reflexivity]).
  exact first_pass_over_reachable.
Qed.

(** * Further properties *)

(** X1: in every state a run of the training loop reaches, the episode
    clock [time_elapsed] is below 300 seconds, and it is the sum of the
    [dt] of the moves made since the episode was announced, added in
    order as the program adds them. *)
Theorem episode_clock_stays_below_limit
        (E : Env) (w0 : World E) (s : St E (TrainDeepQ.Globals E)) :
  TrainDeepQ.reachable w0 s ->
  TrainDeepQ.time_elapsed (globals s) < 300
  /\ Episode.episode_clock (trace s) = TrainDeepQ.time_elapsed (globals s).
Proof.
  intros Hr. split.
  - exact (clock_below_limit w0 s Hr).
  - exact (clock_is_sum_of_moves w0 s Hr).
Qed.

Lemma episode_clock_stays_below_limit_witness :
  TrainDeepQ.reachable (E:=Toy.env) ToyRun.seasoned ToyRun.second_episode
  /\ TrainDeepQ.time_elapsed (globals ToyRun.second_episode) == 1 # 30
  /\ TrainDeepQ.time_elapsed (globals ToyRun.second_episode) < 300
  /\ Episode.episode_clock (trace ToyRun.second_episode)
     = TrainDeepQ.time_elapsed (globals ToyRun.second_episode).
Proof.
  destruct (@episode_clock_stays_below_limit Toy.env ToyRun.seasoned
              ToyRun.second_episode second_episode_reachable) as [Hb Hc].
  split; [exact second_episode_reachable|].
  split; [vm_compute; reflexivity|].
  split; [exact Hb | exact Hc].
Defined.

(** X2: in every reachable state [game_count] is the number of scores
    on record, and the log holds as many successful dumps of the replay
    memory, epsilon decays, score resets and "starting" announcements:
    one of each per finished episode. *)
Theorem one_of_each_per_episode
        (E : Env) (w0 : World E) (s : St E (TrainDeepQ.Globals E)) :
  TrainDeepQ.reachable w0 s ->
  let n := List.length (TrainDeepQ.scores (globals s)) in
  TrainDeepQ.game_count (globals s) = Z.of_nat n
  /\ Episode.count Episode.dumped (trace s) = n
  /\ Episode.count Episode.decayed (trace s) = n
  /\ Episode.count Episode.reset (trace s) = n
  /\ Episode.count Episode.announced (trace s) = n.
Proof.
  intros Hr. exact (reachable_ledger w0 s Hr).
Qed.

Lemma one_of_each_per_episode_witness :
  TrainDeepQ.reachable (E:=Toy.env) ToyRun.seasoned ToyRun.second_episode
  /\ TrainDeepQ.game_count (globals ToyRun.second_episode) = 1%Z
  /\ Episode.count Episode.dumped (trace ToyRun.second_episode) = 1%nat
  /\ Episode.count Episode.decayed (trace ToyRun.second_episode) = 1%nat.
Proof.
  destruct (@one_of_each_per_episode Toy.env ToyRun.seasoned
              ToyRun.second_episode second_episode_reachable)
    as (Hg & Hd & He & _).
  split; [exact second_episode_reachable|].
  split; [exact Hg | split; [exact Hd | exact He]].
Defined.

(** X3: in every reachable state every thread object was started with
    batch size 1024 and 10 epochs (none is left unstarted), there are no
    more thread objects than finished episodes, the global
    [training_thread] refers to the newest of them, and every call of
    [replay_memory] in the log was made with those arguments. *)
Theorem passes_are_standard
        (E : Env) (w0 : World E) (s : St E (TrainDeepQ.Globals E)) :
  TrainDeepQ.reachable w0 s ->
  forallb Episode.launched (threads s) = true
  /\ (List.length (threads s) <= List.length (TrainDeepQ.scores (globals s)))%nat
  /\ TrainDeepQ.training_thread (globals s) = Episode.newest (threads s)
  /\ forallb Episode.standard_replay (trace s) = true.
Proof.
  intros Hr. exact (reachable_standard w0 s Hr).
Qed.

Lemma passes_are_standard_witness :
  TrainDeepQ.reachable (E:=Toy.env) ToyRun.seasoned ToyRun.second_episode
  /\ threads ToyRun.second_episode = [Finished]
  /\ forallb Episode.launched (threads ToyRun.second_episode) = true
  /\ TrainDeepQ.training_thread (globals ToyRun.second_episode) = Some 0%nat
  /\ forallb Episode.standard_replay (trace ToyRun.second_episode) = true.
Proof.
  destruct (@passes_are_standard Toy.env ToyRun.seasoned
              ToyRun.second_episode second_episode_reachable)
    as (Hl & _ & Hn & Hs).
  split; [exact second_episode_reachable|].
  split; [vm_compute; reflexivity|].
  split; [exact Hl | split; [exact Hn | exact Hs]].
Defined.

(** X4: in every reachable state the losses on record are exactly as
    many as the replays that answered a loss, and the log holds one
    replay per pass that came to its end: a loss is never recorded
    twice, invented, or lost. *)
Theorem losses_come_from_passes
        (E : Env) (w0 : World E) (s : St E (TrainDeepQ.Globals E)) :
  TrainDeepQ.reachable w0 s ->
  List.length (TrainDeepQ.losses (globals s))
  = Episode.count Episode.replay_gave_loss (trace s)
  /\ Episode.count Episode.replayed (trace s)
     = Episode.count Episode.finished (threads s).
Proof.
  intros Hr. exact (reachable_losses w0 s Hr).
Qed.

Lemma losses_come_from_passes_witness :
  TrainDeepQ.reachable (E:=Toy.env) ToyRun.seasoned ToyRun.second_episode
  /\ TrainDeepQ.losses (globals ToyRun.second_episode) = [1 # 2]
  /\ List.length (TrainDeepQ.losses (globals ToyRun.second_episode))
     = Episode.count Episode.replay_gave_loss (trace ToyRun.second_episode)
  /\ Episode.count Episode.replayed (trace ToyRun.second_episode)
     = Episode.count Episode.finished (threads ToyRun.second_episode).
Proof.
  destruct (@losses_come_from_passes Toy.env ToyRun.seasoned
              ToyRun.second_episode second_episode_reachable) as [Hl Hp].
  split; [exact second_episode_reachable|].
  split; [vm_compute; reflexivity|].
  split; [exact Hl | exact Hp].
Defined.

(** X5: [game_count] is never negative, and the flag [skip_frame] is up
    only on the threshold of an episode: whenever it is set in a
    reachable state, the score record and the clock are 0, no reward
    has been remembered since the announcement, and at least one
    episode has been finished. *)
Theorem skip_only_opens_an_episode
        (E : Env) (w0 : World E) (s : St E (TrainDeepQ.Globals E)) :
  TrainDeepQ.reachable w0 s ->
  (0 <= TrainDeepQ.game_count (globals s))%Z
  /\ (TrainDeepQ.skip_frame (globals s) = true ->
      TrainDeepQ.last_score (globals s) = 0
      /\ TrainDeepQ.time_elapsed (globals s) = 0
      /\ TrainDeepQ.episode_rewards (trace s) = 0
      /\ (0 < TrainDeepQ.game_count (globals s))%Z).
Proof.
  intros Hr. exact (reachable_skip w0 s Hr).
Qed.

Lemma skip_only_opens_an_episode_witness :
  TrainDeepQ.reachable (E:=Toy.env) ToyRun.seasoned ToyRun.first_pass_over
  /\ TrainDeepQ.skip_frame (globals ToyRun.first_pass_over) = true
  /\ TrainDeepQ.last_score (globals ToyRun.first_pass_over) = 0
  /\ TrainDeepQ.time_elapsed (globals ToyRun.first_pass_over) = 0
  /\ (0 < TrainDeepQ.game_count (globals ToyRun.first_pass_over))%Z.
Proof.
  destruct (@skip_only_opens_an_episode Toy.env ToyRun.seasoned
              ToyRun.first_pass_over first_pass_over_reachable) as [_ Hk].
  assert (Hs : TrainDeepQ.skip_frame (globals ToyRun.first_pass_over) = true)
    by (vm_compute; reflexivity).
  destruct (Hk Hs) as (H1 & H2 & _ & H4).
  split; [exact first_pass_over_reachable|].
  split; [exact Hs | split; [exact H1 | split; [exact H2 | exact H4]]].
Defined.

(** X7: a transition that closes an episode by timeout is remembered
    as not terminal.  On a completed tick where the evaluator answers
    alive and the clock reaches 300 seconds, the episode-end branch
    runs, and the one transition the tick remembers carries
    [done = False]. *)
Theorem timeout_transition_is_not_terminal
        (E : Env) (s : St E (TrainDeepQ.Globals E)) (dt : Q) :
  TrainDeepQ.skip_frame (globals s) = false ->
  fst (TrainDeepQ.game_loop dt s) = Val tt ->
  TrainDeepQ.reported_alive (TrainDeepQ.tick_events dt s) = Some true ->
  300 <= fl E (TrainDeepQ.time_elapsed (globals s) + dt) ->
  TrainDeepQ.episode_end_ran (TrainDeepQ.tick_events dt s) = true
  /\ (exists state action reward new_state,
        In (ERemember state action reward new_state false (Ok tt))
           (TrainDeepQ.tick_events dt s))
  /\ forall state action reward new_state r,
       ~ In (ERemember state action reward new_state true r)
            (TrainDeepQ.tick_events dt s).
Proof.
  intros Hs H Ha Ht.
  destruct (TrainDeepQ.game_loop dt s) as [o s'] eqn:R. cbn [fst] in H. subst o.
  apply Qle_bool_iff in Ht.
  tick_kinds s s' dt R; try congruence;
    try (rewrite Ht, orb_true_r in Hend; discriminate Hend);
    rewrite (tick_events_eq s _ dt _ R eq_refl) in *;
    cbn in Ha; injection Ha as ->;
    (split; [reflexivity|]); split;
    try (do 4 eexists; cbn; do 7 right; left; reflexivity);
    intros st ac rw ns r Hin; cbn in Hin;
    repeat (destruct Hin as [Hin | Hin]; [discriminate Hin|]); exact Hin.
Qed.

Lemma timeout_transition_is_not_terminal_witness :
  let s := set_globals (TrainDeepQ.set_time_elapsed (29999 # 100))
             (TrainDeepQ.initial (E:=Toy.env) (Toy.w0 100000)) in
  TrainDeepQ.skip_frame (globals s) = false
  /\ fst (TrainDeepQ.game_loop (1 # 30) s) = Val tt
  /\ TrainDeepQ.reported_alive (TrainDeepQ.tick_events (1 # 30) s) = Some true
  /\ 300 <= TrainDeepQ.time_elapsed (globals s) + (1 # 30)
  /\ TrainDeepQ.episode_end_ran (TrainDeepQ.tick_events (1 # 30) s) = true
  /\ exists state action reward new_state,
       In (ERemember (E:=Toy.env) state action reward new_state false (Ok tt))
          (TrainDeepQ.tick_events (1 # 30) s).
Proof.
  intros s.
  assert (Hs : TrainDeepQ.skip_frame (globals s) = false) by (vm_compute; reflexivity).
  assert (Hc : fst (TrainDeepQ.game_loop (1 # 30) s) = Val tt)
    by (vm_compute; reflexivity).
  assert (Ha : TrainDeepQ.reported_alive (TrainDeepQ.tick_events (1 # 30) s) = Some true)
    by (vm_compute; reflexivity).
  assert (Ht : 300 <= TrainDeepQ.time_elapsed (globals s) + (1 # 30))
    by (vm_compute; discriminate).
  destruct (@timeout_transition_is_not_terminal Toy.env s (1 # 30) Hs Hc Ha Ht)
    as (He & Hr & _).
  repeat (split; [assumption|]). exact Hr.
Defined.

(** X8: what a completed, non-skipped tick does to the records.  If it
    ends the episode: the score read right before the epsilon decay,
    plus 100, is appended to [scores]; [game_count] goes up by one;
    [last_score] and [time_elapsed] are back to 0; [skip_frame] is set;
    and the last two calls are [init_position], which puts the car
    back, and [reset_score].  If it does not: the clock advances by
    [dt] (one float addition), the tick makes the eight calls of its
    body and no other, and [game_count], [scores], [skip_frame],
    [training_thread] and the thread objects are as before. *)
Theorem tick_bookkeeping
        (E : Env) (s s' : St E (TrainDeepQ.Globals E)) (dt : Q) :
  TrainDeepQ.skip_frame (globals s) = false ->
  TrainDeepQ.game_loop dt s = (Val tt, s') ->
  let g := globals s in
  let g' := globals s' in
  let evs := TrainDeepQ.tick_events dt s in
  if TrainDeepQ.episode_end_ran evs then
    (exists final before after p d,
       evs = before ++ [EGetScore (Ok final); EDecayEpsilon (Ok tt)] ++ after
             ++ [EInitPosition p d (Ok tt); EResetScore (Ok tt)]
       /\ TrainDeepQ.scores g' = TrainDeepQ.scores g ++ [fl E (final + 100)])
    /\ TrainDeepQ.game_count g' = (TrainDeepQ.game_count g + 1)%Z
    /\ TrainDeepQ.last_score g' = 0
    /\ TrainDeepQ.time_elapsed g' = 0
    /\ TrainDeepQ.skip_frame g' = true
  else
    TrainDeepQ.time_elapsed g' = fl E (TrainDeepQ.time_elapsed g + dt)
    /\ List.length evs = 8%nat
    /\ TrainDeepQ.game_count g' = TrainDeepQ.game_count g
    /\ TrainDeepQ.scores g' = TrainDeepQ.scores g
    /\ TrainDeepQ.skip_frame g' = false
    /\ TrainDeepQ.training_thread g' = TrainDeepQ.training_thread g
    /\ threads s' = threads s.
Proof.
  intros Hs R. cbv zeta.
  tick_kinds s s' dt R; try congruence;
    rewrite (tick_events_eq s _ dt _ R eq_refl); cbn -[Qplus].
  - split; [|repeat split].
    exists final.
    eexists (_ :: _ :: _ :: _ :: _ :: _ :: _ :: _ :: _ :: _ :: _ :: []).
    exists [EPrint (MsgGameStarting
                      (TrainDeepQ.game_count (globals s) + 1)
                      (epsilon E (clear_last_explore E w11)))].
    do 2 eexists. split; reflexivity.
  - split; [|repeat split].
    exists final.
    eexists (_ :: _ :: _ :: _ :: _ :: _ :: _ :: _ :: _ :: _ :: _ :: []).
    exists [EPrint (MsgGameStarting
                      (TrainDeepQ.game_count (globals s) + 1)
                      (epsilon E (clear_last_explore E w11)))].
    do 2 eexists. split; reflexivity.
  - repeat split. assumption.
Qed.

Lemma tick_bookkeeping_witness :
  let s := TrainDeepQ.ticks 2 (1 # 30) (TrainDeepQ.initial (E:=Toy.env) (Toy.w0 3)) in
  let s' := snd (TrainDeepQ.game_loop (1 # 30) s) in
  TrainDeepQ.skip_frame (globals s) = false
  /\ TrainDeepQ.game_loop (1 # 30) s = (Val tt, s')
  /\ TrainDeepQ.episode_end_ran (TrainDeepQ.tick_events (1 # 30) s) = true
  /\ TrainDeepQ.game_count (globals s') = 1%Z
  /\ TrainDeepQ.skip_frame (globals s') = true.
Proof.
  intros s s'.
  assert (Hs : TrainDeepQ.skip_frame (globals s) = false) by (vm_compute; reflexivity).
  assert (Ht : TrainDeepQ.game_loop (1 # 30) s = (Val tt, s'))
    by (vm_compute; reflexivity).
  assert (He : TrainDeepQ.episode_end_ran (TrainDeepQ.tick_events (1 # 30) s) = true)
    by (vm_compute; reflexivity).
  pose proof (@tick_bookkeeping Toy.env s s' (1 # 30) Hs Ht) as B.
  cbv zeta in B. rewrite He in B. destruct B as (_ & Hg & _ & _ & Hk).
  split; [exact Hs | split; [exact Ht | split; [exact He | split; [exact Hg | exact Hk]]]].
Defined.

(** X9: a background pass touches none of the tick's records: whatever
    [replay_memory] does, [last_score], [time_elapsed], [game_count],
    [skip_frame], [scores], [training_thread] and the thread objects
    are as before, [losses] gains at most one entry, and the pass makes
    exactly one call of [replay_memory], with the arguments it was
    given. *)
Theorem pass_touches_only_losses
        (E : Env) (batch_size epochs : Z) (s : St E (TrainDeepQ.Globals E)) :
  let s' := snd (TrainDeepQ._background_replay batch_size epochs s) in
  let r := fst (replay_memory E batch_size epochs (world s)) in
  TrainDeepQ.losses (globals s')
  = TrainDeepQ.losses (globals s) ++ Episode.loss_of r
  /\ events_of (TrainDeepQ._background_replay batch_size epochs) s
     = [EReplayMemory batch_size epochs r; EPrint (Episode.pass_report r)]
  /\ world s' = snd (replay_memory E batch_size epochs (world s))
  /\ TrainDeepQ.last_score (globals s') = TrainDeepQ.last_score (globals s)
  /\ TrainDeepQ.time_elapsed (globals s') = TrainDeepQ.time_elapsed (globals s)
  /\ TrainDeepQ.game_count (globals s') = TrainDeepQ.game_count (globals s)
  /\ TrainDeepQ.skip_frame (globals s') = TrainDeepQ.skip_frame (globals s)
  /\ TrainDeepQ.scores (globals s') = TrainDeepQ.scores (globals s)
  /\ TrainDeepQ.training_thread (globals s')
     = TrainDeepQ.training_thread (globals s)
  /\ threads s' = threads s.
Proof.
  cbv zeta. unfold events_of. rewrite background_replay_eq.
  destruct (replay_memory E batch_size epochs (world s)) as [[[l|]|e] w1];
    cbn [fst snd globals world threads trace TrainDeepQ.losses
         TrainDeepQ.set_losses TrainDeepQ.last_score TrainDeepQ.time_elapsed
         TrainDeepQ.game_count TrainDeepQ.skip_frame TrainDeepQ.scores
         TrainDeepQ.training_thread Episode.loss_of Episode.pass_report];
    rewrite skipn_own_length, ?app_nil_r; repeat split.
Qed.

(** X10: [on_close] calls [save_model_weights] exactly once, starts no
    thread, and leaves [last_score], [time_elapsed], [game_count],
    [skip_frame], [scores] and [training_thread] as they were; the
    number of thread objects does not change. *)
Theorem close_saves_once (E : Env) (s : St E (TrainDeepQ.Globals E)) :
  let s' := snd (TrainDeepQ.on_close s) in
  let evs := events_of TrainDeepQ.on_close s in
  Episode.count TrainDeepQ.is_save evs = 1%nat
  /\ existsb TrainDeepQ.is_thread_start evs = false
  /\ TrainDeepQ.last_score (globals s') = TrainDeepQ.last_score (globals s)
  /\ TrainDeepQ.time_elapsed (globals s') = TrainDeepQ.time_elapsed (globals s)
  /\ TrainDeepQ.game_count (globals s') = TrainDeepQ.game_count (globals s)
  /\ TrainDeepQ.skip_frame (globals s') = TrainDeepQ.skip_frame (globals s)
  /\ TrainDeepQ.scores (globals s') = TrainDeepQ.scores (globals s)
  /\ TrainDeepQ.training_thread (globals s')
     = TrainDeepQ.training_thread (globals s)
  /\ List.length (threads s') = List.length (threads s).
Proof.
  cbv zeta. unfold events_of.
  destruct (TrainDeepQ.on_close s) as [o s'] eqn:R.
  destruct s as [[base elapsed n skip ls sc th] w ts tr].
  unfold_py R. simp_py R.
  cbn [snd trace globals threads TrainDeepQ.last_score TrainDeepQ.time_elapsed
       TrainDeepQ.game_count TrainDeepQ.skip_frame TrainDeepQ.scores
       TrainDeepQ.training_thread].
  destruct th as [i|]; simp_py R.
  - destruct (TrainDeepQ.ref_alive ts i) eqn:A; simp_py R.
    + destruct (ref_alive_running ts i A) as (b & e & Hi).
      destruct (finishes_within E 10 w); simp_py R; try rewrite Hi in R; simp_py R.
      * next_call R; [destruct a as [l|]; simp_py R|];
          next_call R; injection R as _ <-; read_calls;
          cbn; rewrite length_update; repeat split.
      * next_call R; injection R as _ <-; read_calls; repeat split.
    + next_call R; injection R as _ <-; read_calls; repeat split.
  - next_call R; injection R as _ <-; read_calls; repeat split.
Qed.

(** X11: the wait of [on_close] is bounded.  With the training thread
    alive, [on_close] joins it with a timeout of 10 seconds.  If the
    pass ends within the timeout, its replay comes before the save and
    the thread is dead afterwards.  If it does not, [on_close] saves
    all the same, with the pass still alive and its replay not in the
    log. *)
Theorem close_wait_is_bounded
        (E : Env) (s : St E (TrainDeepQ.Globals E)) (i : nat) :
  TrainDeepQ.training_thread (globals s) = Some i ->
  TrainDeepQ.ref_alive (threads s) i = true ->
  let s' := snd (TrainDeepQ.on_close s) in
  let evs := events_of TrainDeepQ.on_close s in
  exists saved : reply (Exn E) unit,
    if finishes_within E 10 (world s) then
      TrainDeepQ.ref_alive (threads s') i = false
      /\ exists batch_size epochs r,
           evs = [EPrint MsgWaiting; EThreadJoin i 10;
                  EReplayMemory batch_size epochs r;
                  EPrint (Episode.pass_report r);
                  ESaveModelWeights "model.h5" saved;
                  EPrint (TrainDeepQ.save_report saved)]
    else
      TrainDeepQ.ref_alive (threads s') i = true
      /\ evs = [EPrint MsgWaiting; EThreadJoin i 10;
                ESaveModelWeights "model.h5" saved;
                EPrint (TrainDeepQ.save_report saved)].
Proof.
  cbv zeta. unfold events_of.
  destruct (TrainDeepQ.on_close s) as [o s'] eqn:R.
  destruct s as [[base elapsed n skip ls sc th] w ts tr].
  cbn [globals threads world TrainDeepQ.training_thread]. intros -> A.
  unfold_py R. simp_py R. cbn [snd trace threads].
  rewrite A in R. simp_py R.
  destruct (ref_alive_running ts i A) as (b & e & Hi).
  assert (D : TrainDeepQ.ref_alive
                (TrainDeepQ.update i (fun _ => Finished) ts) i = false).
  { destruct (TrainDeepQ.ref_alive (TrainDeepQ.update i (fun _ => Finished) ts) i)
      eqn:F; [|reflexivity].
    apply ref_alive_finished in F. destruct F as [F _]. now elim F. }
  destruct (finishes_within E 10 w); simp_py R; try rewrite Hi in R; simp_py R.
  - next_call R; [destruct a as [l|]; simp_py R|];
      next_call R; injection R as _ <-; cbn [threads];
      match goal with
      | H : save_model_weights _ _ _ = (?r, _) |- _ => exists r
      end;
      (split; [exact D|]); exists b, e;
      match goal with
      | H : replay_memory _ _ _ _ = (?r, _) |- _ => exists r
      end;
      read_calls; reflexivity.
  - next_call R; injection R as _ <-; cbn [threads];
      match goal with
      | H : save_model_weights _ _ _ = (?r, _) |- _ => exists r
      end;
      (split; [exact A|]); read_calls; reflexivity.
Qed.

(** The first episode of the small world is over and its pass is in
    flight when the window is closed; the trainer is stuck, so the pass
    outlives the join. *)
Lemma close_wait_is_bounded_witness :
  let s := set_world (E:=Toy.env)
             (Toy.with_faults true true false None (world ToyRun.first_episode_over))
             ToyRun.first_episode_over in
  TrainDeepQ.training_thread (globals s) = Some 0%nat
  /\ TrainDeepQ.ref_alive (threads s) 0 = true
  /\ finishes_within Toy.env 10 (world s) = false
  /\ TrainDeepQ.ref_alive (threads (snd (TrainDeepQ.on_close s))) 0 = true
  /\ events_of TrainDeepQ.on_close s
     = [EPrint MsgWaiting; EThreadJoin 0 10;
        ESaveModelWeights (E:=Toy.env) "model.h5" (Ok tt);
        EPrint MsgModelSaved].
Proof.
  intros s.
  assert (Ht : TrainDeepQ.training_thread (globals s) = Some 0%nat)
    by (vm_compute; reflexivity).
  assert (Ha : TrainDeepQ.ref_alive (threads s) 0 = true)
    by (vm_compute; reflexivity).
  assert (Hf : finishes_within Toy.env 10 (world s) = false)
    by (vm_compute; reflexivity).
  destruct (@close_wait_is_bounded Toy.env s 0%nat Ht Ha) as [saved B].
  cbv zeta in B. rewrite Hf in B. destruct B as [Hal Hev].
  split; [exact Ht | split; [exact Ha | split; [exact Hf | split; [exact Hal|]]]].
  vm_compute. reflexivity.
Defined.

(** * More of the inference loop *)

(** Follow every path of a block whose calls are guarded: a call that
    raises is one more case, not the end of the path. *)
Ltac guarded_paths R finish :=
  repeat first
    [ next_call R
    | match type of R with
      | context [if negb ?b then _ else _] => destruct b; simp_py R
      end
    | match type of R with
      | context [if ?c then _ else _] => destruct c eqn:?; simp_py R
      end ];
  finish R.

Section InferenceFacts.
Import Main Episode.
Context {E : Env}.
Local Abbreviation St := (St E (Globals E)).

(** X12: whatever its calls do, a tick of [main.py] completes, leaves
    the global [start_direction] and the thread objects alone, and
    calls nothing but [get_input_data], [calculate_command] in
    inference mode, [move], [evaluate], [init_position], [reset_score]
    and the logger: it never remembers, dumps, replays, decays epsilon
    or saves.  It reads the state once, commands once and moves once,
    and evaluates at most once. *)
Theorem inference_tick_is_contained (s : St) (dt : Q) :
  let s' := snd (game_loop dt s) in
  let evs := events_of (game_loop dt) s in
  fst (game_loop dt s) = Val tt
  /\ globals s' = globals s
  /\ threads s' = threads s
  /\ forallb Inference.allowed evs = true
  /\ count Inference.reads evs = 1%nat
  /\ count Inference.commands evs = 1%nat
  /\ count Inference.moves evs = 1%nat
  /\ (count Inference.evaluates evs <= 1)%nat.
Proof.
  cbv zeta. unfold events_of.
  destruct (game_loop dt s) as [o s'] eqn:R.
  destruct s as [[d] w ts tr].
  unfold_py R. simp_py R. cbn [fst snd globals threads trace].
  guarded_paths R ltac:(fun R =>
    injection R as <- <-; read_calls; cbn; repeat split; lia).
Qed.

(** X13: the inference tick resets with discipline.  It never resets
    the score without having re-placed the car earlier in the tick;
    when the evaluator answers alive it resets nothing; and when the
    evaluator answers not-alive or raises, it calls [init_position]
    once and [reset_score] once, the second even if the first fails. *)
Theorem inference_tick_resets_when_done (s : St) (dt : Q) :
  let evs := events_of (game_loop dt) s in
  Inference.placed_before_reset false evs = true
  /\ (In (EEvaluate dt (Ok true)) evs -> existsb Inference.resets evs = false)
  /\ (forall r, In (EEvaluate dt r) evs -> r <> Ok true ->
        count Inference.reinits evs = 1%nat
        /\ count Inference.resets_score evs = 1%nat).
Proof.
  cbv zeta. unfold events_of.
  destruct (game_loop dt s) as [o s'] eqn:R.
  destruct s as [[d] w ts tr].
  unfold_py R. simp_py R. cbn [snd trace].
  guarded_paths R ltac:(fun R =>
    injection R as _ <-; read_calls;
    (split; [reflexivity|]); split;
    [ intros Hin; cbn [In] in Hin;
      repeat (destruct Hin as [Hin | Hin]; [try discriminate Hin|]);
      try contradiction; reflexivity
    | intros r Hin Hr; cbn [In] in Hin;
      repeat (destruct Hin as [Hin | Hin];
              [try discriminate Hin; try (injection Hin as <-)|]);
      try contradiction; try (now elim Hr); split; reflexivity ]).
Qed.

End InferenceFacts.

Section InferenceRecovery.
Import Main Episode.
Context {E : Env}.
Local Abbreviation St := (St E (Globals E)).

Ltac among H :=
  cbn [In] in H;
  repeat (destruct H as [H | H];
          [first [discriminate H | injection H; intros; subst | idtac]|]);
  try contradiction.

Ltac listed := cbn [In]; solve [repeat (first [left; reflexivity | right])].

(** X14: the catch-all handler of the inference tick (lines 139-147)
    runs in one situation only: [move] raised and the re-placement in
    its handler raised too; the error it reports is that of the failed
    re-placement.  Conversely a failed re-placement after a failed
    move always reaches it.  Every re-placement of the tick passes the
    global [start_direction]. *)
Theorem catch_all_only_after_failed_recovery (s : St) (dt : Q) :
  let evs := events_of (game_loop dt) s in
  (forall e, In (ELog ERROR (MsgUnhandled e)) evs ->
     exists turn_rate acceleration_rate e1 p,
       In (EMove turn_rate acceleration_rate dt (Raise e1)) evs
       /\ In (EInitPosition p (start_direction (globals s)) (Raise e)) evs)
  /\ (forall turn_rate acceleration_rate e1 p d e,
        In (EMove turn_rate acceleration_rate dt (Raise e1)) evs ->
        In (EInitPosition p d (Raise e)) evs ->
        exists e', In (ELog ERROR (MsgUnhandled e')) evs)
  /\ (forall p d r, In (EInitPosition p d r) evs ->
        d = start_direction (globals s)).
Proof.
  cbv zeta. unfold events_of.
  destruct (game_loop dt s) as [o s'] eqn:R.
  destruct s as [[d] w ts tr].
  unfold_py R. simp_py R. cbn [snd trace globals start_direction].
  guarded_paths R ltac:(fun R =>
    injection R as _ <-; read_calls;
    (split; [| split]);
    [ intros ? Hin; among Hin; do 4 eexists; split; listed
    | intros ? ? ? ? ? ? Hm Hin; among Hm; among Hin; eexists; listed
    | intros ? ? ? Hin; among Hin; reflexivity ]).
Qed.

End InferenceRecovery.

(** * The window handlers *)

Arguments Top.record {E} a s /.

Ltac unfold_top H :=
  unfold MainTop.startup, MainTop.imports, MainTop.load_track,
         MainTop.place_car, MainTop.load_evaluator, MainTop.load_driver,
         MainTop.open_window, MainTop.bind_start_direction,
         MainTop.init_position_at, MainTop.on_draw, MainTop.on_resize,
         TrainTop.on_draw, TrainTop.on_resize,
         Top.core, Main.load_model,
         Top.invoke, Top.look, Top.note_, Top.raise,
         def, try_except, bind, call, load, store, attr, set_attr, print, log,
         gets, modify, ret, return_ in H.

Ltac read_acts :=
  cbn [snd Top.acts]; repeat rewrite <- app_assoc; cbn [app map];
  first [rewrite skipn_own_length | rewrite skipn_all].

Section HandlerFacts.
Import Top.
Context {E : Env} (T : Stage E).

Ltac among H :=
  cbn [In] in H;
  repeat (destruct H as [H | H];
          [first [discriminate H | injection H; intros; subst | subst | idtac]|]);
  try contradiction.

Ltac listed := cbn [In]; solve [repeat (first [left; reflexivity | right])].

(** X15: [on_draw] of [main.py] draws what it can.  The window is
    cleared first; if that raises, the handler raises the same
    exception and draws nothing.  Otherwise the handler completes, and
    it calls [drawer.draw] and then [evaluator.draw_lines], each once,
    the second whether or not the first failed; it logs one error per
    failure. *)
Theorem on_draw_draws_what_it_can (s : Scene E) :
  let o := fst (MainTop.on_draw T s) in
  let evs := acts_of (MainTop.on_draw T) s in
  (exists r, hd_error evs = Some (AClear r))
  /\ (forall e, In (AClear (Raise e)) evs ->
        o = Exc e /\ evs = [AClear (Raise e)])
  /\ (In (AClear (Ok tt)) evs ->
        o = Val tt
        /\ (exists r1 r2, calls evs = [AClear (Ok tt); ADraw r1; ADrawLines r2])
        /\ List.length (filter is_note evs) = List.length (filter failed evs)).
Proof.
  cbv zeta. unfold acts_of.
  destruct (MainTop.on_draw T s) as [o s'] eqn:R.
  destruct s as [w tr].
  unfold_top R. simp_py R. cbn [fst snd acts].
  guarded_paths R ltac:(fun R =>
    injection R as <- <-; read_acts;
    (split; [eexists; reflexivity|]); split;
    [ intros ? Hin; among Hin; (split; reflexivity)
    | intros Hin; among Hin;
      (split; [reflexivity
              | split; [do 2 eexists; reflexivity | reflexivity]]) ]).
Qed.

(** X16: [on_resize] of [main.py] never raises.  It resizes the canvas
    with the size it is given, and redraws exactly when the resize
    worked; a failure of either is the last call of the handler and is
    logged once. *)
Theorem on_resize_never_raises (s : Scene E) (width height : Z) :
  let o := fst (MainTop.on_resize T width height s) in
  let evs := acts_of (MainTop.on_resize T width height) s in
  o = Val tt
  /\ (exists r, hd_error evs = Some (AResizeCanvas width height r))
  /\ (forall r, In (ADraw r) evs <->
        calls evs = [AResizeCanvas width height (Ok tt); ADraw r])
  /\ (forall a e, In a evs -> fault a = Some e ->
        evs = calls evs ++ [ANote ERROR (NoteResizeFailed e)]
        /\ final (calls evs) = Some a).
Proof.
  cbv zeta. unfold acts_of.
  destruct (MainTop.on_resize T width height s) as [o s'] eqn:R.
  destruct s as [w tr].
  unfold_top R. simp_py R. cbn [fst snd acts].
  guarded_paths R ltac:(fun R =>
    injection R as <- <-; read_acts;
    (split; [reflexivity|]);
    (split; [eexists; reflexivity|]); split;
    [ intros ?; split;
      [ intros Hin; among Hin; reflexivity
      | intros Hc; cbn in Hc;
        first [discriminate Hc | injection Hc as <-]; listed ]
    | intros ? ? Hin Hf; among Hin; cbn in Hf;
      first [discriminate Hf | injection Hf as <-]; (split; reflexivity) ]).
Qed.

(** X17: the guarded handlers of [main.py] do what the plain handlers
    of [train_deep_q.py] do, and go on where those stop.  From the
    same state the log of the plain handler is a prefix of the log of
    the guarded one; when the plain handler completes, the two end in
    the same state. *)
Theorem guarded_handlers_extend_plain_ones (s : Scene E) (width height : Z) :
  (exists rest,
     acts_of (MainTop.on_draw T) s = acts_of (TrainTop.on_draw T) s ++ rest)
  /\ (fst (TrainTop.on_draw T s) = Val tt ->
      MainTop.on_draw T s = TrainTop.on_draw T s)
  /\ (exists rest,
        acts_of (MainTop.on_resize T width height) s
        = acts_of (TrainTop.on_resize T width height) s ++ rest)
  /\ (fst (TrainTop.on_resize T width height s) = Val tt ->
      MainTop.on_resize T width height s = TrainTop.on_resize T width height s).
Proof.
  unfold acts_of.
  destruct (MainTop.on_draw T s) as [o1 s1] eqn:R1.
  destruct (TrainTop.on_draw T s) as [o2 s2] eqn:R2.
  destruct (MainTop.on_resize T width height s) as [o3 s3] eqn:R3.
  destruct (TrainTop.on_resize T width height s) as [o4 s4] eqn:R4.
  destruct s as [w tr].
  unfold_top R1. unfold_top R2. unfold_top R3. unfold_top R4.
  simp_py R1. simp_py R2. simp_py R3. simp_py R4. cbn [fst snd acts].
  split; [| split; [| split]].
  - clear R3 R4.
    repeat (next_call R1; simp_py R2);
      injection R1 as _ <-; injection R2 as _ <-;
      cbn [acts]; repeat rewrite <- app_assoc; cbn [app];
      repeat rewrite skipn_own_length; eexists; cbn [app]; reflexivity.
  - clear R3 R4.
    repeat (next_call R1; simp_py R2);
      injection R1 as <- <-; injection R2 as <- <-;
      intros Hc; first [discriminate Hc | reflexivity].
  - clear R1 R2.
    repeat (next_call R3; simp_py R4);
      injection R3 as _ <-; injection R4 as _ <-;
      cbn [acts]; repeat rewrite <- app_assoc; cbn [app];
      repeat rewrite skipn_own_length; eexists; cbn [app]; reflexivity.
  - clear R1 R2.
    repeat (next_call R3; simp_py R4);
      injection R3 as <- <-; injection R4 as <- <-;
      intros Hc; first [discriminate Hc | reflexivity].
Qed.

End HandlerFacts.

(** * The start of [main.py] *)

Section StartupFacts.
Import Top MainTop.
Context {E : Env} (T : Stage E).

Ltac among H :=
  cbn [In] in H;
  repeat (destruct H as [H | H];
          [first [discriminate H | injection H; intros; subst | subst | idtac]|]);
  try contradiction.

Ltac listed := cbn [In]; solve [repeat (first [left; reflexivity | right])].

Ltac run_startup R :=
  unfold startup in R; cbn [check_assets] in R; unfold_top R; simp_py R.

(** X18: which failures stop the start of [main.py].  A raise of an
    import, of the track or evaluator loader or of a constructor is
    the exception startup ends with.  Conversely, when startup raises,
    either an asset is missing and the exception is
    [FileNotFoundError] of its path, or the last call made is such a
    required step, or it is the second attempt to place the car (or
    the normalisation it needs) after a first failed attempt.  So a
    failure to load the model, to register the player driver or to
    normalise the start direction on line 88 is never what stops
    startup. *)
Theorem startup_fatal_cases (s : Scene E) :
  let o := fst (startup T s) in
  let evs := acts_of (startup T) s in
  (forall a e, In a evs -> required_fault a = Some e -> o = Exc e)
  /\ (forall e, o = Exc e ->
        (exists p, In (ANote ERROR (NoteAssetMissing p)) evs
                   /\ e = FileNotFoundError T p)
        \/ exists a, final (calls evs) = Some a
             /\ (required_fault a = Some e
                 \/ (placement_fault a = Some e
                     /\ exists e0, In (ANote ERROR (NoteInitFailed e0)) evs))).
Proof.
  cbv zeta. unfold acts_of.
  destruct (startup T s) as [o s'] eqn:R.
  destruct s as [w tr].
  run_startup R. cbn [fst snd acts].
  guarded_paths R ltac:(fun R =>
    injection R as <- <-; read_acts; split;
    [ intros ? ? Hin Hf; among Hin; cbn in Hf;
      first [discriminate Hf | injection Hf as <-; reflexivity]
    | intros ? Ho; first [discriminate Ho | injection Ho as <-];
      first
        [ left; eexists; split; [listed | reflexivity]
        | right; eexists; split; [reflexivity|];
          first [ left; reflexivity
                | right; split; [reflexivity | eexists; listed] ] ] ]).
Qed.


(** X19: the direction the game loop re-places the car with.  When
    startup completes, its last call is the normalisation of the
    track's start direction (line 88), and the global
    [start_direction] is the normalised vector if that call answered,
    and the vector as the track gave it if it raised. *)
Theorem startup_binds_start_direction (s : Scene E) (d : Dir E) :
  fst (startup T s) = Val d ->
  exists d0 r,
    final (acts_of (startup T) s) = Some (ANormalized d0 r)
    /\ d = match r with Ok n => n | Raise _ => d0 end.
Proof.
  unfold acts_of.
  destruct (startup T s) as [o s'] eqn:R.
  destruct s as [w tr].
  run_startup R. cbn [fst snd acts].
  guarded_paths R ltac:(fun R =>
    injection R as <- <-; read_acts;
    intros Ho; first [discriminate Ho | injection Ho as <-];
    do 2 eexists; split; reflexivity).
Qed.

(** X20: a missing asset stops startup before anything is loaded.
    When the top level reports an asset missing, it has done nothing
    but the imports: no track, car, evaluator, driver or window call
    was made.  The exception is [FileNotFoundError] of the path, the
    path is the first of the two assets that does not exist. *)
Theorem missing_asset_stops_startup (s : Scene E) (p : string) :
  In (ANote ERROR (NoteAssetMissing p)) (acts_of (startup T) s) ->
  fst (startup T s) = Exc (FileNotFoundError T p)
  /\ acts_of (startup T) s
     = [AImport (Ok tt); ANote ERROR (NoteAssetMissing p)]
  /\ path_exists E p (stage (snd (startup T s))) = false
  /\ (p = TRACK_PATH
      \/ (p = EVAL_LINES_PATH
          /\ path_exists E TRACK_PATH (stage (snd (startup T s))) = true)).
Proof.
  unfold acts_of.
  destruct (startup T s) as [o s'] eqn:R.
  destruct s as [w tr].
  run_startup R. cbn [fst snd acts stage].
  guarded_paths R ltac:(fun R =>
    injection R as <- <-; read_acts; cbn [stage];
    intros Hin; among Hin;
    (split; [reflexivity|]); (split; [reflexivity|]);
    (split; [assumption|]);
    first [left; reflexivity | right; split; [reflexivity | assumption]]).
Qed.

(** X21: placing the car at startup (lines 38-47).  The placement is
    attempted at most twice; the block completes exactly when an
    attempt answered; the normalisation is called only after a failed
    first attempt, and what it answers is the direction of the second
    attempt; when the block raises, the exception is that of the last
    call made, not that of the first failure. *)
Theorem car_placement_falls_back_once (s : Scene E) :
  let o := fst (place_car T s) in
  let evs := acts_of (place_car T) s in
  (List.length (filter is_placement evs) <= 2)%nat
  /\ (o = Val tt <->
      exists p d, In (ACore (EInitPosition p d (Ok tt))) evs)
  /\ (forall d r, In (ANormalized d r) evs ->
        exists e, In (ANote ERROR (NoteInitFailed e)) evs)
  /\ (forall d n, In (ANormalized d (Ok n)) evs ->
        exists p r, final evs = Some (ACore (EInitPosition p n r)))
  /\ (forall e, o = Exc e ->
        exists a, final evs = Some a /\ fault a = Some e).
Proof.
  cbv zeta. unfold acts_of.
  destruct (place_car T s) as [o s'] eqn:R.
  destruct s as [w tr].
  unfold_top R. simp_py R. cbn [fst snd acts].
  guarded_paths R ltac:(fun R =>
    injection R as <- <-; read_acts;
    (split; [cbn; lia|]);
    (split; [split; [ intros Ho; first [discriminate Ho | do 2 eexists; listed]
                    | intros [? [? Hin]]; among Hin; reflexivity ]|]);
    (split; [intros ? ? Hin; among Hin; eexists; listed|]);
    (split; [intros ? ? Hin; among Hin; do 2 eexists; reflexivity|]);
    intros ? Ho; first [discriminate Ho | injection Ho as <-];
    eexists; split; reflexivity).
Qed.

End StartupFacts.

Section InferenceRuns.
Import Main Episode.
Context {E : Env}.
Local Abbreviation St := (St E (Globals E)).

Ltac among H :=
  cbn [In] in H;
  repeat (destruct H as [H | H];
          [first [discriminate H | injection H; intros; subst | subst | idtac]|]);
  try contradiction.

Lemma inference_tick_frame (s : St) (dt : Q) :
  globals (snd (game_loop dt s)) = globals s
  /\ trace (snd (game_loop dt s)) = trace s ++ events_of (game_loop dt) s
  /\ Inference.placed_along (start_direction (globals s))
                            (events_of (game_loop dt) s).
Proof.
  unfold events_of, Inference.placed_along.
  destruct (game_loop dt s) as [o s'] eqn:R.
  destruct s as [[d] w ts tr].
  unfold_py R. simp_py R. cbn [snd trace globals start_direction].
  guarded_paths R ltac:(fun R =>
    injection R as _ <-; cbn [globals trace]; split; [reflexivity|];
    repeat rewrite <- app_assoc; cbn [app];
    first [rewrite skipn_own_length | rewrite skipn_all];
    split; [first [reflexivity | symmetry; apply app_nil_r]|];
    intros ? ? ? Hin; among Hin; reflexivity).
Qed.

(** X22: the direction of every re-placement is fixed when the loop
    starts.  However many ticks run and whatever the collaborators
    do, the global [start_direction] keeps the value startup gave it,
    and every [init_position] the loop has called was passed that
    value, not the track's vector read anew. *)
Theorem placement_direction_is_fixed (d : Dir E) (w0 : World E) (dts : list Q) :
  let s := Inference.ticks dts (initial d w0) in
  globals s = mkGlobals d
  /\ threads s = []
  /\ Inference.placed_along d (trace s).
Proof.
  cbv zeta.
  assert (G : forall s : St,
             start_direction (globals s) = d ->
             Inference.placed_along d (trace s) ->
             globals (Inference.ticks dts s) = globals s
             /\ threads (Inference.ticks dts s) = threads s
             /\ Inference.placed_along d (trace (Inference.ticks dts s))).
  { induction dts as [|dt rest IH]; intros s Hd Hp.
    - repeat split; assumption.
    - cbn [Inference.ticks].
      destruct (inference_tick_frame s dt) as (Hg & Ht & Hn).
      assert (Hth : threads (snd (game_loop dt s)) = threads s).
      { destruct s as [[d1] w ts tr].
        destruct (game_loop dt _) as [o s'] eqn:R.
        unfold_py R. simp_py R. cbn [snd threads].
        guarded_paths R ltac:(fun R => injection R as _ <-; reflexivity). }
      destruct (IH (snd (game_loop dt s))) as (Hg' & Ht' & Hn').
      + rewrite Hg. exact Hd.
      + rewrite Ht. intros p d' r Hin. apply in_app_or in Hin.
        destruct Hin as [Hin | Hin]; [exact (Hp _ _ _ Hin)|].
        rewrite <- Hd. exact (Hn _ _ _ Hin).
      + rewrite Hg', Hg, Ht', Hth. repeat split. exact Hn'. }
  destruct (G (initial d w0) eq_refl) as (Hg & Ht & Hn).
  - intros p d' r Hin. destruct Hin.
  - rewrite Hg, Ht. repeat split. exact Hn.
Qed.

End InferenceRuns.

(** The small world with its assets and a readable model: startup
    completes, and the direction is the unit step. *)
Lemma startup_binds_start_direction_witness :
  fst (MainTop.startup ToyTop.stage
         (ToyTop.blank (Toy.with_faults true true true (Some true) (Toy.w0 3))))
  = Val 1%Z
  /\ exists d0 r,
       Top.final (Top.acts_of (MainTop.startup ToyTop.stage)
                    (ToyTop.blank
                       (Toy.with_faults true true true (Some true) (Toy.w0 3))))
       = Some (Top.ANormalized (E:=Toy.env) d0 r)
       /\ 1%Z = match r with Ok n => n | Raise _ => d0 end.
Proof.
  assert (H : fst (MainTop.startup ToyTop.stage
                     (ToyTop.blank
                        (Toy.with_faults true true true (Some true) (Toy.w0 3))))
              = Val 1%Z) by (vm_compute; reflexivity).
  split; [exact H|].
  exact (@startup_binds_start_direction Toy.env ToyTop.stage _ _ H).
Defined.

(** The small world without its files: the track is reported missing
    and nothing is constructed. *)
Lemma missing_asset_stops_startup_witness :
  In (Top.ANote ERROR (Top.NoteAssetMissing (E:=Toy.env) MainTop.TRACK_PATH))
     (Top.acts_of (MainTop.startup ToyTop.stage) (ToyTop.blank (Toy.w0 3)))
  /\ Top.acts_of (MainTop.startup ToyTop.stage) (ToyTop.blank (Toy.w0 3))
     = [Top.AImport (E:=Toy.env) (Ok tt);
        Top.ANote ERROR (Top.NoteAssetMissing MainTop.TRACK_PATH)].
Proof.
  assert (H : In (Top.ANote ERROR
                    (Top.NoteAssetMissing (E:=Toy.env) MainTop.TRACK_PATH))
                 (Top.acts_of (MainTop.startup ToyTop.stage)
                    (ToyTop.blank (Toy.w0 3))))
    by (vm_compute; right; left; reflexivity).
  split; [exact H|].
  exact (proj1 (proj2 (@missing_asset_stops_startup Toy.env ToyTop.stage _ _ H))).
Defined.

(** * What a failed tick of the training loop leaves behind *)

Section FailedTick.
Import TrainDeepQ Episode.
Context {E : Env}.
Local Abbreviation St := (St E (Globals E)).

(** X23: a tick of the training loop that raises is not rolled back.
    The clock has been advanced by [dt] and the episode goes on, unless
    the failing call is the re-placement or the score reset at the end
    of the episode branch: then the game counter has been incremented
    and the clock and [last_score] are back to zero.  Either way
    [skip_frame] is left down, so the next tick is not skipped. *)
Theorem failed_tick_is_not_rolled_back (s : St) (dt : Q) (e : Exn E) :
  skip_frame (globals s) = false ->
  fst (game_loop dt s) = Exc e ->
  let g := globals s in
  let g' := globals (snd (game_loop dt s)) in
  skip_frame g' = false
  /\ ((game_count g' = game_count g
       /\ time_elapsed g' = fl E (time_elapsed g + dt))
      \/ (game_count g' = (game_count g + 1)%Z
          /\ time_elapsed g' = 0
          /\ last_score g' = 0
          /\ List.length (scores g') = S (List.length (scores g))
          /\ exists ev, Top.final (tick_events dt s) = Some ev
                        /\ Inference.resets ev = true
                        /\ fault_of ev = Some e)).
Proof.
  cbv zeta. unfold tick_events, events_of.
  destruct (game_loop dt s) as [o s'] eqn:R.
  destruct s as [[base elapsed n skip ls sc th] w ts tr].
  cbn [globals skip_frame]. intros -> Ho.
  unfold_py R. simp_py R.
  cbn [fst snd globals trace skip_frame game_count time_elapsed last_score scores]
    in Ho |- *.
  all_paths R ltac:(fun R =>
    injection R as <- <-; first [discriminate Ho | injection Ho as <-];
    cbn [globals trace skip_frame game_count time_elapsed last_score scores];
    (split; [reflexivity|]);
    first
      [ left; split; reflexivity
      | right; read_calls;
        (split; [reflexivity|]); (split; [reflexivity|]);
        (split; [reflexivity|]);
        (split; [rewrite length_app; cbn; lia|]);
        eexists; split; [reflexivity | split; reflexivity] ]).
Qed.

End FailedTick.

(** A sensor fault on the first tick of the small world. *)
Lemma failed_tick_is_not_rolled_back_witness :
  let s := TrainDeepQ.initial (E:=Toy.env)
             (Toy.with_faults false true true None (Toy.w0 3)) in
  fst (TrainDeepQ.game_loop (1 # 30) s) = Exc Toy.SensorError
  /\ TrainDeepQ.skip_frame
       (globals (snd (TrainDeepQ.game_loop (1 # 30) s))) = false
  /\ TrainDeepQ.time_elapsed
       (globals (snd (TrainDeepQ.game_loop (1 # 30) s))) = 0 + (1 # 30).
Proof.
  intros s.
  assert (Hs : TrainDeepQ.skip_frame (globals s) = false) by reflexivity.
  assert (Ho : fst (TrainDeepQ.game_loop (1 # 30) s) = Exc Toy.SensorError)
    by (vm_compute; reflexivity).
  destruct (@failed_tick_is_not_rolled_back Toy.env s (1 # 30) _ Hs Ho)
    as [Hk [[_ Ht] | [Hn _]]].
  - split; [exact Ho | split; [exact Hk | exact Ht]].
  - vm_compute in Hn. discriminate Hn.
Defined.
